(** * Street light controller (PIC16F877A): software clock, day/night
      state machine and character-display driver

    The repository holds three builds of the firmware:
    - [main.c] and "Auto Light Intensity.c": LDR + PIR light control with an
      LCD status screen (the two files differ only in layout and in the
      spelling of one conditional);
    - "Auto Light extra.c": the same, plus sunrise/sunset logging.

    The Timer2 interrupt routine and the LCD driver are the same text in all
    three; they are embedded once below.  What differs between the builds
    lives in the modules [Basic] and [Extra].

    C values of type [unsigned char] are integers in [Z] with the wrap-around
    modulo 256 written out; one-bit port fields are [Z] values 0 or 1. *)

From Stdlib Require Import ZArith List Bool Lia String Ascii.
Import ListNotations.
Local Open Scope Z_scope.

(** ** Machine integers *)

(** Conversion of an [int] result to [unsigned char]. *)
Definition u8 (x : Z) : Z := x mod 256.

(** A one-bit port field read as an integer. *)
Definition bit (b : bool) : Z := if b then 1 else 0.

(** ** Software clock: the Timer2 interrupt service routine *)

(** The three [volatile unsigned char] time variables together with the
    Timer2 interrupt flag [PIR1bits.TMR2IF]. *)
Record rtc : Type := mkRtc {
  seconds : Z;
  minutes : Z;
  hours : Z;
  TMR2IF : bool
}.

(** Static initialisers of the time variables: 22:00:00. *)
Definition rtc_boot : rtc :=
  {| seconds := 0; minutes := 0; hours := 22; TMR2IF := false |}.

(** [void __interrupt() ISR(void)] *)
Definition ISR (r : rtc) : rtc :=
  if TMR2IF r then
    let s := u8 (seconds r + 1) in
    if s >=? 60 then
      let m := u8 (minutes r + 1) in
      if m >=? 60 then
        let h := u8 (hours r + 1) in
        if h >=? 24
        then {| seconds := 0; minutes := 0; hours := 0; TMR2IF := false |}
        else {| seconds := 0; minutes := 0; hours := h; TMR2IF := false |}
      else {| seconds := 0; minutes := m; hours := hours r; TMR2IF := false |}
    else {| seconds := s; minutes := minutes r; hours := hours r;
            TMR2IF := false |}
  else r.

(** The timer period match raises the flag. *)
Definition raise_TMR2IF (r : rtc) : rtc :=
  {| seconds := seconds r; minutes := minutes r; hours := hours r;
     TMR2IF := true |}.

(** One tick: Timer2 raises its flag and the routine is entered. *)
Definition tick (r : rtc) : rtc := ISR (raise_TMR2IF r).

(** [n] ticks in a row. *)
Fixpoint ticks (n : nat) (r : rtc) : rtc :=
  match n with
  | O => r
  | S k => ticks k (tick r)
  end.

(** The clock reading as a triple (hours, minutes, seconds). *)
Definition snapshot (r : rtc) : Z * Z * Z := (hours r, minutes r, seconds r).

(** The clock at 00:00:00. *)
Definition midnight : rtc :=
  {| seconds := 0; minutes := 0; hours := 0; TMR2IF := false |}.

(** A valid wall-clock triple. *)
Definition valid_time (r : rtc) : Prop :=
  0 <= hours r <= 23 /\ 0 <= minutes r <= 59 /\ 0 <= seconds r <= 59.

(** Seconds elapsed since 00:00:00. *)
Definition day_second (r : rtc) : Z :=
  3600 * hours r + 60 * minutes r + seconds r.

(** ** Character display: the 4-bit bus *)

(** What the display module sees of the firmware: a nibble latched on each
    falling edge of the strobe [EN], and the time the firmware lets pass. *)
Inductive bus_event : Type :=
| Latch (rs : Z) (nibble : Z)
| Wait (us : Z).

(** The PORTD output pins wired to the display ([LCD_RS] is RD0, [LCD_EN] is
    RD3, [LCD_D4]..[LCD_D7] are RD4..RD7) and the bus history, newest event
    first. *)
Record lcd : Type := mkLcd {
  RD0 : Z;
  RD3 : Z;
  RD4 : Z;
  RD5 : Z;
  RD6 : Z;
  RD7 : Z;
  wire : list bus_event
}.

(** The nibble on the data lines, D7 the most significant. *)
Definition data_nibble (l : lcd) : Z :=
  RD4 l + 2 * RD5 l + 4 * RD6 l + 8 * RD7 l.

(** Pin assignments.  Every value the driver assigns is already a single
    bit (a literal 0 or 1, or an expression masked with [& 1]). *)
Definition LCD_RS (v : Z) (l : lcd) : lcd :=
  mkLcd v (RD3 l) (RD4 l) (RD5 l) (RD6 l) (RD7 l) (wire l).
Definition LCD_D4 (v : Z) (l : lcd) : lcd :=
  mkLcd (RD0 l) (RD3 l) v (RD5 l) (RD6 l) (RD7 l) (wire l).
Definition LCD_D5 (v : Z) (l : lcd) : lcd :=
  mkLcd (RD0 l) (RD3 l) (RD4 l) v (RD6 l) (RD7 l) (wire l).
Definition LCD_D6 (v : Z) (l : lcd) : lcd :=
  mkLcd (RD0 l) (RD3 l) (RD4 l) (RD5 l) v (RD7 l) (wire l).
Definition LCD_D7 (v : Z) (l : lcd) : lcd :=
  mkLcd (RD0 l) (RD3 l) (RD4 l) (RD5 l) (RD6 l) v (wire l).

(** Writing the strobe: a 1-to-0 transition makes the display latch the
    register-select line and the data nibble. *)
Definition LCD_EN (v : Z) (l : lcd) : lcd :=
  mkLcd (RD0 l) v (RD4 l) (RD5 l) (RD6 l) (RD7 l)
        (if (RD3 l =? 1) && (v =? 0)
         then Latch (RD0 l) (data_nibble l) :: wire l
         else wire l).

(** [__delay_us(n)] and [__delay_ms(n)]: busy-waits. *)
Definition __delay_us (n : Z) (l : lcd) : lcd :=
  mkLcd (RD0 l) (RD3 l) (RD4 l) (RD5 l) (RD6 l) (RD7 l) (Wait n :: wire l).
Definition __delay_ms (n : Z) (l : lcd) : lcd := __delay_us (1000 * n) l.

(** Statement sequencing on a piece of state. *)
Definition seq_ {A : Type} (f g : A -> A) : A -> A := fun a => g (f a).
Notation "f ;; g" := (seq_ f g) (at level 61, left associativity).

(** C shift and mask on non-negative values. *)
Definition bit_of (x : Z) (k : Z) : Z := Z.land (Z.shiftr x k) 1.

(** [void LCD_Command(unsigned char cmd)] *)
Definition LCD_Command (cmd : Z) : lcd -> lcd :=
  LCD_RS 0 ;;
  LCD_D4 (bit_of cmd 4) ;;
  LCD_D5 (bit_of cmd 5) ;;
  LCD_D6 (bit_of cmd 6) ;;
  LCD_D7 (bit_of cmd 7) ;;
  LCD_EN 1 ;; __delay_us 1 ;; LCD_EN 0 ;;
  LCD_D4 (Z.land cmd 1) ;;
  LCD_D5 (bit_of cmd 1) ;;
  LCD_D6 (bit_of cmd 2) ;;
  LCD_D7 (bit_of cmd 3) ;;
  LCD_EN 1 ;; __delay_us 1 ;; LCD_EN 0 ;;
  __delay_ms 2.

(** [void LCD_Data(unsigned char dat)] *)
Definition LCD_Data (dat : Z) : lcd -> lcd :=
  LCD_RS 1 ;;
  LCD_D4 (bit_of dat 4) ;;
  LCD_D5 (bit_of dat 5) ;;
  LCD_D6 (bit_of dat 6) ;;
  LCD_D7 (bit_of dat 7) ;;
  LCD_EN 1 ;; __delay_us 1 ;; LCD_EN 0 ;;
  LCD_D4 (Z.land dat 1) ;;
  LCD_D5 (bit_of dat 1) ;;
  LCD_D6 (bit_of dat 2) ;;
  LCD_D7 (bit_of dat 3) ;;
  LCD_EN 1 ;; __delay_us 1 ;; LCD_EN 0 ;;
  __delay_ms 2.

(** Character code of a [char]. *)
Definition code (c : ascii) : Z := Z.of_N (N_of_ascii c).

(** [void LCD_String(const char* str)]: characters are sent until the
    terminating NUL. *)
Fixpoint LCD_String (str : string) (l : lcd) : lcd :=
  match str with
  | EmptyString => l
  | String c rest =>
      if code c =? 0 then l else LCD_String rest (LCD_Data (code c) l)
  end.

(** [void LCD_Clear(void)] *)
Definition LCD_Clear : lcd -> lcd :=
  LCD_Command 1 ;; __delay_ms 2.

(** The command byte [LCD_SetCursor] computes: the expression is evaluated
    in [int] and converted to the [unsigned char] parameter of
    [LCD_Command]. *)
Definition cursor_command (row col : Z) : Z :=
  u8 ((if row =? 1 then 128 else 192) + col - 1).

(** [void LCD_SetCursor(unsigned char row, unsigned char col)] *)
Definition LCD_SetCursor (row col : Z) : lcd -> lcd :=
  LCD_Command (cursor_command row col).

(** How a call of a driver routine ends.  The C routines return [void] and
    contain no assertion, no early return and no trap, so a call either
    returns with the new pin state or, for a routine that checked its
    arguments, would stop with a precondition violation. *)
Inductive outcome : Type :=
| Returned (l : lcd)
| PreconditionViolation.

(** A call of [LCD_SetCursor] as the source has it: it always returns. *)
Definition call_LCD_SetCursor (row col : Z) (l : lcd) : outcome :=
  Returned (LCD_SetCursor row col l).

(** The cursor positions the display has: rows 1 and 2, columns 1 to 16. *)
Definition on_screen (row col : Z) : bool :=
  ((row =? 1) || (row =? 2)) && (1 <=? col) && (col <=? 16).

(** [PORTD = 0x00]: every output pin is driven low (a strobe that was
    high falls with the rest). *)
Definition clear_PORTD : lcd -> lcd :=
  LCD_RS 0 ;; LCD_EN 0 ;; LCD_D4 0 ;; LCD_D5 0 ;; LCD_D6 0 ;; LCD_D7 0.

(** ** Bus traffic, byte by byte *)

(** A byte transfer as the driver frames it, or a pause. *)
Inductive xfer : Type :=
| Cmd (b : Z)
| Dat (b : Z)
| Pause (us : Z).

(** Two-phase framing of one byte: strobe pulse with the high nibble, strobe
    pulse with the low nibble, settle delay. *)
Definition frame_byte (rs b : Z) : list bus_event :=
  [Wait 1; Latch rs ((b / 16) mod 16); Wait 1; Latch rs (b mod 16); Wait 2000].

Definition bus_of_xfer (x : xfer) : list bus_event :=
  match x with
  | Cmd b => frame_byte 0 b
  | Dat b => frame_byte 1 b
  | Pause us => [Wait us]
  end.

Definition bus_of (xs : list xfer) : list bus_event :=
  flat_map bus_of_xfer xs.

(** The data bytes of a C string. *)
Fixpoint text (str : string) : list xfer :=
  match str with
  | EmptyString => []
  | String c rest => if code c =? 0 then [] else Dat (code c) :: text rest
  end.

(** Character codes of a string. *)
Fixpoint codes (str : string) : list Z :=
  match str with
  | EmptyString => []
  | String c rest => code c :: codes rest
  end.

(** Clearing the screen on the bus. *)
Definition clear_xfers : list xfer := [Cmd 1; Pause 2000].

(** ** The display module

    The HD44780-compatible controller on the other end of the bus, as far as
    the driver uses it: nibble pairs are assembled into bytes; command 0x01
    blanks the display memory and homes the address counter; a command with
    bit 7 set loads the address counter; a data byte is stored at the address
    counter, which then advances (entry mode 0x06, two-line layout).  The
    remaining commands do not change the display memory. *)
Record display : Type := mkDisplay {
  pending : option Z;
  AC : Z;
  DDRAM : Z -> Z
}.

Definition next_address (a : Z) : Z :=
  if a =? 39 then 64 else if a =? 103 then 0 else a + 1.

Definition exec_command (b : Z) (d : display) : display :=
  if b =? 1 then mkDisplay None 0 (fun _ => 32)
  else if b >=? 128 then mkDisplay None (b - 128) (DDRAM d)
  else if (b =? 2) || (b =? 3) then mkDisplay None 0 (DDRAM d)
  else mkDisplay None (AC d) (DDRAM d).

Definition exec_data (b : Z) (d : display) : display :=
  mkDisplay None (next_address (AC d))
            (fun a => if a =? AC d then b else DDRAM d a).

Definition display_step (d : display) (e : bus_event) : display :=
  match e with
  | Wait _ => d
  | Latch rs n =>
      match pending d with
      | None => mkDisplay (Some n) (AC d) (DDRAM d)
      | Some hi =>
          if rs =? 0 then exec_command (16 * hi + n) d
          else exec_data (16 * hi + n) d
      end
  end.

(** The display after a stretch of bus traffic, oldest event first. *)
Definition display_run (evs : list bus_event) (d : display) : display :=
  fold_left display_step evs d.

(** Byte-level view of the same. *)
Definition xfer_step (d : display) (x : xfer) : display :=
  match x with
  | Cmd b => exec_command (u8 b) d
  | Dat b => exec_data (u8 b) d
  | Pause _ => d
  end.

Definition xfer_run (xs : list xfer) (d : display) : display :=
  fold_left xfer_step xs d.

(** The sixteen visible cells of a row, given the row's base address. *)
Definition row (base : Z) (d : display) : list Z :=
  map (fun k => DDRAM d (base + k)) [0;1;2;3;4;5;6;7;8;9;10;11;12;13;14;15].

(** The visible screen: row 1 at base 0x00, row 2 at base 0x40. *)
Definition screen (d : display) : list Z * list Z := (row 0 d, row 64 d).

(** A display whose memory is blank and that waits for a high nibble. *)
Definition blank : display := mkDisplay None 0 (fun _ => 32).

(** Two decimal digits, most significant first. *)
Definition is_digit (c : Z) : Prop := 48 <= c <= 57.
Definition digit_value (c : Z) : Z := c - 48.
(** ** Sensor samples and the light decision *)

(** One reading of the two sensor lines: [PORTBbits.RB0] (LDR, high when
    dark) and [PORTDbits.RD2] (PIR, high on motion). *)
Record sample : Type := mkSample {
  RB0 : bool;
  RD2 : bool
}.

(** Brightness levels of the source: [0=OFF, 2=FULL]. *)
Definition OFF : Z := 0.
Definition FULL : Z := 2.

(** The light control block of the main loop.  Every branch assigns both
    [PORTCbits.RC1] and [brightness]; the pair returned is
    (value written to RC1, brightness). *)
Definition light_control (isNight motion : Z) : Z * Z :=
  if isNight =? 0 then (0, 0)
  else if negb (motion =? 0) then (1, 2)
  else (0, 0).

(** [void LCD_Print_Time(unsigned char h, unsigned char m)] of the logging
    build. *)
Definition LCD_Print_Time (h m : Z) : lcd -> lcd :=
  LCD_Data (u8 (h / 10 + 48)) ;;
  LCD_Data (u8 (h mod 10 + 48)) ;;
  LCD_Data 58 ;;
  LCD_Data (u8 (m / 10 + 48)) ;;
  LCD_Data (u8 (m mod 10 + 48)).

(** The bytes [LCD_Print_Time] sends. *)
Definition time_xfers (h m : Z) : list xfer :=
  [Dat (u8 (h / 10 + 48)); Dat (u8 (h mod 10 + 48)); Dat 58;
   Dat (u8 (m / 10 + 48)); Dat (u8 (m mod 10 + 48))].

(** ** Build 1: [main.c] and "Auto Light Intensity.c" *)
Module Basic.

Record mcu : Type := mkMcu {
  clock : rtc;
  RC1 : Z;
  panel : lcd
}.

Definition on_clock (f : rtc -> rtc) (m : mcu) : mcu :=
  mkMcu (f (clock m)) (RC1 m) (panel m).
Definition set_RC1 (v : Z) (m : mcu) : mcu :=
  mkMcu (clock m) v (panel m).
Definition on_panel (f : lcd -> lcd) (m : mcu) : mcu :=
  mkMcu (clock m) (RC1 m) (f (panel m)).

(** [void LCD_Init(void)] *)
Definition LCD_Init : lcd -> lcd :=
  __delay_ms 20 ;;
  LCD_Command 2 ;; LCD_Command 40 ;; LCD_Command 12 ;;
  LCD_Command 6 ;; LCD_Command 1 ;;
  __delay_ms 2.

(** [void Update_Display(isNight, motion, level)] *)
Definition Update_Display (isNight motion level : Z) : lcd -> lcd :=
  LCD_SetCursor 1 1 ;;
  LCD_String (if isNight =? 0 then "Day   " else "Night ") ;;
  LCD_String "M:" ;;
  LCD_String (if motion =? 0 then "NO  " else "YES ") ;;
  LCD_SetCursor 2 1 ;;
  LCD_String "Light:" ;;
  LCD_String (if level =? 2 then "ON   " else "OFF  ").

(** [System_Init]: port directions and the timer/interrupt configuration
    registers are not part of the state; what remains is RC1 and PORTD
    driven low and the display initialised. *)
Definition System_Init : mcu -> mcu :=
  set_RC1 0 ;; on_panel clear_PORTD ;; on_panel LCD_Init.

(** [main] up to the loop. *)
Definition startup : mcu -> mcu :=
  System_Init ;;
  on_panel LCD_Clear ;;
  on_panel (LCD_String "Street Light") ;;
  on_panel (LCD_SetCursor 2 1) ;;
  on_panel (LCD_String "Controller") ;;
  on_panel (__delay_ms 2000) ;;
  on_panel LCD_Clear.

(** One iteration of [while(1)].  [irq] is the number of Timer2
    interrupts served during the iteration; the loop never reads the
    clock, so where they fall does not matter. *)
Definition main_cycle (s : sample) (irq : nat) (m : mcu) : mcu :=
  let isNight := bit (RB0 s) in
  let motion := bit (RD2 s) in
  let '(rc1, brightness) := light_control isNight motion in
  (set_RC1 rc1 ;;
   on_panel (Update_Display isNight motion brightness) ;;
   on_panel (__delay_ms 150) ;;
   on_clock (ticks irq)) m.

End Basic.

(** ** Build 2: "Auto Light extra.c", with sunrise and sunset logging *)
Module Extra.

Record mcu : Type := mkMcu {
  clock : rtc;
  sunrise_h : Z;
  sunrise_m : Z;
  sunset_h : Z;
  sunset_m : Z;
  prevLDRState : Z;
  RC1 : Z;
  panel : lcd
}.

Definition on_clock (f : rtc -> rtc) (m : mcu) : mcu :=
  mkMcu (f (clock m)) (sunrise_h m) (sunrise_m m) (sunset_h m) (sunset_m m)
        (prevLDRState m) (RC1 m) (panel m).
Definition set_sunrise_h (v : Z) (m : mcu) : mcu :=
  mkMcu (clock m) v (sunrise_m m) (sunset_h m) (sunset_m m)
        (prevLDRState m) (RC1 m) (panel m).
Definition set_sunrise_m (v : Z) (m : mcu) : mcu :=
  mkMcu (clock m) (sunrise_h m) v (sunset_h m) (sunset_m m)
        (prevLDRState m) (RC1 m) (panel m).
Definition set_sunset_h (v : Z) (m : mcu) : mcu :=
  mkMcu (clock m) (sunrise_h m) (sunrise_m m) v (sunset_m m)
        (prevLDRState m) (RC1 m) (panel m).
Definition set_sunset_m (v : Z) (m : mcu) : mcu :=
  mkMcu (clock m) (sunrise_h m) (sunrise_m m) (sunset_h m) v
        (prevLDRState m) (RC1 m) (panel m).
Definition set_prevLDRState (v : Z) (m : mcu) : mcu :=
  mkMcu (clock m) (sunrise_h m) (sunrise_m m) (sunset_h m) (sunset_m m)
        v (RC1 m) (panel m).
Definition set_RC1 (v : Z) (m : mcu) : mcu :=
  mkMcu (clock m) (sunrise_h m) (sunrise_m m) (sunset_h m) (sunset_m m)
        (prevLDRState m) v (panel m).
Definition on_panel (f : lcd -> lcd) (m : mcu) : mcu :=
  mkMcu (clock m) (sunrise_h m) (sunrise_m m) (sunset_h m) (sunset_m m)
        (prevLDRState m) (RC1 m) (f (panel m)).

(** The statically initialised variables at power-on; the port pins are
    whatever the hardware holds. *)
Definition power_on (rc1 : Z) (pins : lcd) : mcu :=
  mkMcu rtc_boot 0 0 0 0 0 rc1 pins.

(** [void LCD_Init(void)] *)
Definition LCD_Init : lcd -> lcd :=
  __delay_ms 20 ;;
  LCD_Command 2 ;; LCD_Command 40 ;; LCD_Command 12 ;;
  LCD_Command 6 ;; LCD_Command 1.

(** [void Update_Display(isNight, motion, level)] *)
Definition Update_Display (isNight motion level : Z) : lcd -> lcd :=
  LCD_SetCursor 1 1 ;;
  LCD_String (if isNight =? 0 then "Day   " else "Night ") ;;
  LCD_String "M:" ;;
  LCD_String (if motion =? 0 then "NO  " else "YES ") ;;
  LCD_SetCursor 2 1 ;;
  LCD_String "Light:" ;;
  LCD_String (if level =? 0 then "OFF  " else "ON   ").

(** The dwell of the sunrise/sunset screen: [__delay_ms(5000)]. *)
Definition dwell_us : Z := 5000000.

(** [void Show_Sunrise_Sunset(void)] *)
Definition Show_Sunrise_Sunset (m : mcu) : mcu :=
  on_panel
    (LCD_Clear ;;
     LCD_SetCursor 1 1 ;;
     LCD_String "Sunrise:" ;;
     LCD_Print_Time (sunrise_h m) (sunrise_m m) ;;
     LCD_SetCursor 2 1 ;;
     LCD_String "Sunset :" ;;
     LCD_Print_Time (sunset_h m) (sunset_m m) ;;
     __delay_ms 5000 ;;
     LCD_Clear) m.

(** [System_Init], as in the first build. *)
Definition System_Init : mcu -> mcu :=
  set_RC1 0 ;; on_panel clear_PORTD ;; on_panel LCD_Init.

(** [main] up to the loop: splash screen, then the latch is loaded from
    the LDR line.  [ldr] is the level of RB0 at that read, [irq] the
    number of Timer2 interrupts served meanwhile. *)
Definition startup (ldr : bool) (irq : nat) : mcu -> mcu :=
  System_Init ;;
  on_panel LCD_Clear ;;
  on_panel (LCD_String "Street Light") ;;
  on_panel (LCD_SetCursor 2 1) ;;
  on_panel (LCD_String "Controller") ;;
  on_panel (__delay_ms 2000) ;;
  on_panel LCD_Clear ;;
  on_clock (ticks irq) ;;
  set_prevLDRState (bit ldr).

(** Where Timer2 interrupts fall in one loop iteration, as far as the
    iteration can tell: before the first clock read, between the read of
    [hours] and the read of [minutes], and in the rest of the iteration.
    The routine touches nothing but the clock, and the iteration reads
    the clock in these two places only. *)
Record preempt : Type := mkPreempt {
  irq_before : nat;
  irq_between : nat;
  irq_after : nat
}.

Inductive sun_kind : Type := SUNRISE | SUNSET.

(** A logged event: its kind and the hour and minute stored for it. *)
Definition sun_event : Type := (sun_kind * Z * Z)%type.

(** The two tests of the edge detector. *)
Definition edge (prev isNight : Z) : option sun_kind :=
  if (prev =? 1) && (isNight =? 0) then Some SUNRISE
  else if (prev =? 0) && (isNight =? 1) then Some SUNSET
  else None.

(** [sunrise_h = hours; sunrise_m = minutes;] with the interrupts that
    fall between the two statements. *)
Definition stamp_sunrise (p : preempt) : mcu -> mcu :=
  (fun m => set_sunrise_h (hours (clock m)) m) ;;
  on_clock (ticks (irq_between p)) ;;
  (fun m => set_sunrise_m (minutes (clock m)) m).

(** [sunset_h = hours; sunset_m = minutes;] likewise. *)
Definition stamp_sunset (p : preempt) : mcu -> mcu :=
  (fun m => set_sunset_h (hours (clock m)) m) ;;
  on_clock (ticks (irq_between p)) ;;
  (fun m => set_sunset_m (minutes (clock m)) m).

(** The sunrise/sunset detection block, ending with the latch update. *)
Definition detect (isNight : Z) (p : preempt) (m : mcu) : mcu :=
  let m1 := on_clock (ticks (irq_before p)) m in
  let m2 :=
    match edge (prevLDRState m1) isNight with
    | Some SUNRISE => Show_Sunrise_Sunset (stamp_sunrise p m1)
    | Some SUNSET => Show_Sunrise_Sunset (stamp_sunset p m1)
    | None => m1
    end in
  set_prevLDRState isNight m2.

(** The event a detection block logs, if any: the branch taken and the
    time stamp left in the record it wrote. *)
Definition logged (isNight : Z) (p : preempt) (m : mcu) : option sun_event :=
  match edge (prevLDRState m) isNight with
  | Some SUNRISE =>
      let m' := detect isNight p m in
      Some (SUNRISE, sunrise_h m', sunrise_m m')
  | Some SUNSET =>
      let m' := detect isNight p m in
      Some (SUNSET, sunset_h m', sunset_m m')
  | None => None
  end.

(** One iteration of [while(1)]. *)
Definition main_cycle (s : sample) (p : preempt) (m : mcu) : mcu :=
  let isNight := bit (RB0 s) in
  let motion := bit (RD2 s) in
  let m1 := detect isNight p m in
  let '(rc1, brightness) := light_control isNight motion in
  (set_RC1 rc1 ;;
   on_panel (Update_Display isNight motion brightness) ;;
   on_panel (__delay_ms 150) ;;
   on_clock (ticks (irq_after p))) m1.

(** The event logged by an iteration. *)
Definition cycle_event (s : sample) (p : preempt) (m : mcu)
  : option sun_event :=
  logged (bit (RB0 s)) p m.

(** A run of iterations: the final state and the event of each
    iteration, in order. *)
Fixpoint run (inputs : list (sample * preempt)) (m : mcu)
  : mcu * list (option sun_event) :=
  match inputs with
  | [] => (m, [])
  | (s, p) :: rest =>
      let '(m', evs) := run rest (main_cycle s p m) in
      (m', cycle_event s p m :: evs)
  end.

(** The latch after each iteration of a run, in order. *)
Fixpoint latches (inputs : list (sample * preempt)) (m : mcu) : list Z :=
  match inputs with
  | [] => []
  | (s, p) :: rest =>
      let m' := main_cycle s p m in
      prevLDRState m' :: latches rest m'
  end.

(** The clock states the clock goes through while [n] interrupts are
    served, the starting state included. *)
Fixpoint passed_through (n : nat) (r : rtc) : list rtc :=
  match n with
  | O => [r]
  | S k => r :: passed_through k (tick r)
  end.

(** A stamp (h, m) is a snapshot of the clock if some state the clock
    went through during the read carries exactly this hour and minute. *)
Definition is_snapshot_of (h m : Z) (states : list rtc) : bool :=
  existsb (fun r => (hours r =? h) && (minutes r =? m)) states.

End Extra.

(** ** Observing the bus *)

(** The statement sequence [LCD_Command] and [LCD_Data] share, with the
    register-select level and the eight bit values left open. *)
Definition two_strobes (rs h4 h5 h6 h7 l4 l5 l6 l7 : Z) : lcd -> lcd :=
  LCD_RS rs ;;
  LCD_D4 h4 ;; LCD_D5 h5 ;; LCD_D6 h6 ;; LCD_D7 h7 ;;
  LCD_EN 1 ;; __delay_us 1 ;; LCD_EN 0 ;;
  LCD_D4 l4 ;; LCD_D5 l5 ;; LCD_D6 l6 ;; LCD_D7 l7 ;;
  LCD_EN 1 ;; __delay_us 1 ;; LCD_EN 0 ;;
  __delay_ms 2.

(** The events added to a history [new] since it was [old], oldest first. *)
Definition since (old new : list bus_event) : list bus_event :=
  rev (firstn (List.length new - List.length old) new).

(** The bus traffic a driver routine produces from pin state [l]. *)
Definition emitted (f : lcd -> lcd) (l : lcd) : list bus_event :=
  since (wire l) (wire (f l)).

(** A routine that produces the same byte transfers from every pin state. *)
Definition emits (f : lcd -> lcd) (xs : list xfer) : Prop :=
  forall l, wire (f l) = rev (bus_of xs) ++ wire l.

(** The screen at the first busy-wait of exactly [us] microseconds, if the
    traffic contains one. *)
Fixpoint screen_at_wait (us : Z) (evs : list bus_event) (d : display)
  : option (list Z * list Z) :=
  match evs with
  | [] => None
  | Wait n :: rest =>
      if n =? us then Some (screen d) else screen_at_wait us rest d
  | e :: rest => screen_at_wait us rest (display_step d e)
  end.

(** The status screen, line by line. *)
Definition status_line1 (night motion : bool) : string :=
  ((if night then "Night " else "Day   ") ++ "M:" ++
   (if motion then "YES " else "NO  "))%string.

Definition status_line2 (on : bool) : string :=
  ("Light:" ++ (if on then "ON   " else "OFF  "))%string.

(** The byte transfers of a status render. *)
Definition status_xfers (night motion on : bool) : list xfer :=
  Cmd 128 :: text (status_line1 night motion) ++
  Cmd 192 :: text (status_line2 on).

(** The byte transfers of the sunrise/sunset screen up to the dwell. *)
Definition overlay_xfers (rise_h rise_m set_h set_m : Z) : list xfer :=
  clear_xfers ++
  Cmd 128 :: text "Sunrise:" ++ time_xfers rise_h rise_m ++
  Cmd 192 :: text "Sunset :" ++ time_xfers set_h set_m.

(** The five cells of a time field. *)
Definition time_cells (h m : Z) : list Z :=
  [48 + h / 10; 48 + h mod 10; 58; 48 + m / 10; 48 + m mod 10].

(** A blank row. *)
Definition blank_row : list Z := codes "                ".

(** What a status render has to satisfy: the same traffic from every pin
    state, the same screen when repeated, and the two lines of text at the
    start of the two rows. *)
Definition renders_status (render : lcd -> lcd) (night motion on : bool)
  : Prop :=
  forall (l l' : lcd) (ac : Z) (mem : Z -> Z),
    let d0 := mkDisplay None ac mem in
    let d1 := display_run (emitted render l) d0 in
    let d2 := display_run (emitted render (render l)) d1 in
    emitted render l = emitted render l' /\
    emitted render l = bus_of (status_xfers night motion on) /\
    screen d2 = screen d1 /\
    firstn 12 (fst (screen d1)) = codes (status_line1 night motion) /\
    firstn 11 (snd (screen d1)) = codes (status_line2 on) /\
    skipn 12 (fst (screen d1)) = skipn 12 (fst (screen d0)) /\
    skipn 11 (snd (screen d1)) = skipn 11 (snd (screen d0)) /\
    screen (display_run (emitted render l) blank) =
      (codes (status_line1 night motion ++ "    "),
       codes (status_line2 on ++ "     ")).

(** The records of the logging build hold clock values. *)
Definition records_valid (m : Extra.mcu) : Prop :=
  0 <= Extra.sunrise_h m <= 23 /\ 0 <= Extra.sunrise_m m <= 59 /\
  0 <= Extra.sunset_h m <= 23 /\ 0 <= Extra.sunset_m m <= 59.

(** The bus traffic of one loop iteration of the logging build. *)
Definition cycle_bus (s : sample) (p : Extra.preempt) (m : Extra.mcu)
  : list bus_event :=
  since (wire (Extra.panel m)) (wire (Extra.panel (Extra.main_cycle s p m))).

(** Events of a given kind in a log. *)
Definition is_kind (k : Extra.sun_kind) (e : option Extra.sun_event) : bool :=
  match e, k with
  | Some (Extra.SUNRISE, _, _), Extra.SUNRISE => true
  | Some (Extra.SUNSET, _, _), Extra.SUNSET => true
  | _, _ => false
  end.

Definition never (k : Extra.sun_kind) (log : list (option Extra.sun_event))
  : bool :=
  forallb (fun e => negb (is_kind k e)) log.

(** No busy-wait of exactly [us] microseconds in a stretch of traffic. *)
Fixpoint no_wait (us : Z) (evs : list bus_event) : bool :=
  match evs with
  | [] => true
  | Wait n :: rest => negb (n =? us) && no_wait us rest
  | Latch _ _ :: rest => no_wait us rest
  end.

(** The bus traffic of one call of [Show_Sunrise_Sunset]. *)
Definition overlay_bus (m : Extra.mcu) : list bus_event :=
  since (wire (Extra.panel m))
        (wire (Extra.panel (Extra.Show_Sunrise_Sunset m))).

(** The sunrise/sunset screen for given records. *)
Definition overlay_screen (rise_h rise_m set_h set_m : Z)
  : list Z * list Z :=
  ((codes "Sunrise:" ++ time_cells rise_h rise_m ++ codes "   ")%list,
   (codes "Sunset :" ++ time_cells set_h set_m ++ codes "   ")%list).

(** A time field reads as two decimal digits, a colon, two decimal digits,
    and the digits spell the two numbers with leading zeros. *)
Definition reads_as (cells : list Z) (h m : Z) : Prop :=
  match cells with
  | [a; b; c; d; e] =>
      is_digit a /\ is_digit b /\ c = code ":" /\ is_digit d /\ is_digit e /\
      10 * digit_value a + digit_value b = h /\
      10 * digit_value d + digit_value e = m
  | _ => False
  end.

(** The other kind of event. *)
Definition other (k : Extra.sun_kind) : Extra.sun_kind :=
  match k with
  | Extra.SUNRISE => Extra.SUNSET
  | Extra.SUNSET => Extra.SUNRISE
  end.

(** The stored record of a kind, as (hour, minute). *)
Definition record_of (k : Extra.sun_kind) (m : Extra.mcu) : Z * Z :=
  match k with
  | Extra.SUNRISE => (Extra.sunrise_h m, Extra.sunrise_m m)
  | Extra.SUNSET => (Extra.sunset_h m, Extra.sunset_m m)
  end.

(** The row of the sunrise/sunset screen that shows a kind. *)
Definition row_of (k : Extra.sun_kind) (scr : list Z * list Z) : list Z :=
  match k with
  | Extra.SUNRISE => fst scr
  | Extra.SUNSET => snd scr
  end.

(** That row for a record still at its initial value. *)
Definition zero_row (k : Extra.sun_kind) : list Z :=
  match k with
  | Extra.SUNRISE => codes "Sunrise:00:00   "
  | Extra.SUNSET => codes "Sunset :00:00   "
  end.

(** The state in which an iteration that detects an edge of kind [k] calls
    [Show_Sunrise_Sunset]. *)
Definition stamped (k : Extra.sun_kind) (p : Extra.preempt) (m : Extra.mcu)
  : Extra.mcu :=
  let m1 := Extra.on_clock (ticks (Extra.irq_before p)) m in
  match k with
  | Extra.SUNRISE => Extra.stamp_sunrise p m1
  | Extra.SUNSET => Extra.stamp_sunset p m1
  end.

(** ** Further observations *)

(** Every time variable holds an [unsigned char] value. *)
Definition byte_clock (r : rtc) : Prop :=
  0 <= hours r <= 255 /\ 0 <= minutes r <= 255 /\ 0 <= seconds r <= 255.

(** A C string without an embedded NUL. *)
Fixpoint nul_free (s : string) : bool :=
  match s with
  | EmptyString => true
  | String c rest => negb (code c =? 0) && nul_free rest
  end.

(** Total busy-wait time in a stretch of bus traffic, in microseconds. *)
Fixpoint busy_time (evs : list bus_event) : Z :=
  match evs with
  | [] => 0
  | Wait n :: rest => n + busy_time rest
  | Latch _ _ :: rest => busy_time rest
  end.

(** The bus traffic of one loop iteration of the first build. *)
Definition basic_cycle_bus (s : sample) (irq : nat) (m : Basic.mcu)
  : list bus_event :=
  since (wire (Basic.panel m)) (wire (Basic.panel (Basic.main_cycle s irq m))).

(** The kind of a logged event. *)
Definition kind_of (e : option Extra.sun_event) : option Extra.sun_kind :=
  match e with
  | Some (k, _, _) => Some k
  | None => None
  end.

(** The changes in a sequence of LDR levels, starting from level [prev]. *)
Fixpoint edges (prev : bool) (ldrs : list bool)
  : list (option Extra.sun_kind) :=
  match ldrs with
  | [] => []
  | b :: rest =>
      (match prev, b with
       | true, false => Some Extra.SUNRISE
       | false, true => Some Extra.SUNSET
       | _, _ => None
       end) :: edges b rest
  end.

Definition kind_eqb (a b : Extra.sun_kind) : bool :=
  match a, b with
  | Extra.SUNRISE, Extra.SUNRISE => true
  | Extra.SUNSET, Extra.SUNSET => true
  | _, _ => false
  end.

(** The kinds in a log alternate, the first being [expect]. *)
Fixpoint alternates (expect : Extra.sun_kind)
    (ks : list (option Extra.sun_kind)) : bool :=
  match ks with
  | [] => true
  | None :: rest => alternates expect rest
  | Some k :: rest => kind_eqb k expect && alternates (other k) rest
  end.

(** The stamp of the last event of kind [k] in a log, [init] if none. *)
Fixpoint last_stamp (k : Extra.sun_kind) (log : list (option Extra.sun_event))
    (init : Z * Z) : Z * Z :=
  match log with
  | [] => init
  | Some (k', h, m) :: rest =>
      last_stamp k rest (if kind_eqb k k' then (h, m) else init)
  | None :: rest => last_stamp k rest init
  end.

(** The byte transfers of the splash screen: clear, title, second line,
    two seconds, clear. *)
Definition splash_xfers : list xfer :=
  clear_xfers ++ text "Street Light" ++
  Cmd 192 :: text "Controller" ++
  Pause 2000000 :: clear_xfers.

(** The bus traffic of [main] between [System_Init] and the loop. *)
Definition basic_splash_bus (m : Basic.mcu) : list bus_event :=
  since (wire (Basic.panel (Basic.System_Init m)))
        (wire (Basic.panel (Basic.startup m))).

Definition extra_splash_bus (ldr : bool) (irq : nat) (m : Extra.mcu)
  : list bus_event :=
  since (wire (Extra.panel (Extra.System_Init m)))
        (wire (Extra.panel (Extra.startup ldr irq m))).


(** ** What an iteration of the logging build does, seen from outside *)

(** The bus traffic of the status render and the 150 ms pause that end
    every iteration. *)
Definition status_bus (s : sample) : list bus_event :=
  bus_of (status_xfers (RB0 s) (RD2 s) (RB0 s && RD2 s)) ++ [Wait 150000].

(** An iteration from state [m] agrees with the log entry [e] when the
    stored records and the bus traffic say the same as the entry.  For no
    event: neither record is written and the traffic is the status render
    alone.  For an event of kind [k] stamped [h]:[mi]: the record of [k]
    holds that stamp, the other record is untouched, and the traffic is the
    sunrise/sunset screen for the records now stored, the dwell, a clear,
    and then the status render. *)
Definition iteration_matches (e : option Extra.sun_event) (s : sample)
    (p : Extra.preempt) (m : Extra.mcu) : Prop :=
  let m' := Extra.main_cycle s p m in
  match e with
  | None =>
      record_of Extra.SUNRISE m' = record_of Extra.SUNRISE m /\
      record_of Extra.SUNSET m' = record_of Extra.SUNSET m /\
      cycle_bus s p m = status_bus s
  | Some (k, h, mi) =>
      record_of k m' = (h, mi) /\
      record_of (other k) m' = record_of (other k) m /\
      cycle_bus s p m =
        bus_of (overlay_xfers (Extra.sunrise_h m') (Extra.sunrise_m m')
                  (Extra.sunset_h m') (Extra.sunset_m m'))
        ++ Wait Extra.dwell_us :: (bus_of clear_xfers ++ status_bus s)
  end.

(** Every iteration of a run agrees with its entry in a log. *)
Fixpoint run_matches (inputs : list (sample * Extra.preempt)) (m : Extra.mcu)
    (log : list (option Extra.sun_event)) : Prop :=
  match inputs, log with
  | [], [] => True
  | (s, p) :: rest, e :: log' =>
      iteration_matches e s p m /\
      run_matches rest (Extra.main_cycle s p m) log'
  | _, _ => False
  end.

(** The clock states between the two reads of a stamp taken in state [m]:
    those the clock goes through while the interrupts between the read of
    [hours] and the read of [minutes] are served. *)
Definition read_span (p : Extra.preempt) (m : Extra.mcu) : list rtc :=
  Extra.passed_through (Extra.irq_between p)
    (ticks (Extra.irq_before p) (Extra.clock m)).

(** ** Clock lemmas *)

(** A tick on a valid clock, field by field. *)
Lemma tick_fields r :
  valid_time r ->
  seconds (tick r) = (if seconds r =? 59 then 0 else seconds r + 1) /\
  minutes (tick r) =
    (if seconds r =? 59
     then (if minutes r =? 59 then 0 else minutes r + 1)
     else minutes r) /\
  hours (tick r) =
    (if (seconds r =? 59) && (minutes r =? 59)
     then (if hours r =? 23 then 0 else hours r + 1)
     else hours r) /\
  TMR2IF (tick r) = false.
Proof.
  intros (Hh & Hm & Hs).
  unfold tick, ISR, raise_TMR2IF, u8; cbn [TMR2IF seconds minutes hours].
  rewrite (Z.mod_small (seconds r + 1)) by lia.
  destruct (Z.eqb_spec (seconds r) 59) as [Es|Es];
    destruct (Z.geb_spec (seconds r + 1) 60); try lia;
    cbn [seconds minutes hours TMR2IF andb]; [|tauto].
  rewrite (Z.mod_small (minutes r + 1)) by lia.
  destruct (Z.eqb_spec (minutes r) 59) as [Em|Em];
    destruct (Z.geb_spec (minutes r + 1) 60); try lia;
    cbn [seconds minutes hours TMR2IF]; [|tauto].
  rewrite (Z.mod_small (hours r + 1)) by lia.
  destruct (Z.eqb_spec (hours r) 23) as [Eh|Eh];
    destruct (Z.geb_spec (hours r + 1) 24); try lia;
    cbn [seconds minutes hours TMR2IF]; tauto.
Qed.

Lemma tick_valid r : valid_time r -> valid_time (tick r).
Proof.
  intro H. destruct (tick_fields r H) as (Es & Em & Eh & _).
  destruct H as (Hh & Hm & Hs).
  unfold valid_time. rewrite Es, Em, Eh.
  destruct (Z.eqb_spec (seconds r) 59), (Z.eqb_spec (minutes r) 59),
    (Z.eqb_spec (hours r) 23); cbn [andb]; lia.
Qed.

Lemma ISR_idle r : TMR2IF r = false -> ISR r = r.
Proof. intro H. unfold ISR. rewrite H. reflexivity. Qed.

Lemma ISR_pending r : TMR2IF r = true -> ISR r = tick r.
Proof.
  intro H. unfold tick, ISR, raise_TMR2IF; cbn [TMR2IF seconds minutes hours].
  rewrite H. reflexivity.
Qed.

Lemma ISR_valid r : valid_time r -> valid_time (ISR r).
Proof.
  intro H. destruct (TMR2IF r) eqn:E.
  - rewrite (ISR_pending r E). apply tick_valid, H.
  - rewrite (ISR_idle r E). exact H.
Qed.

Lemma ticks_valid n r : valid_time r -> valid_time (ticks n r).
Proof.
  revert r. induction n as [|n IH]; intros r H; [exact H|].
  simpl. apply IH, tick_valid, H.
Qed.

(** A tick advances the second-of-day counter by one, modulo a day. *)
Lemma tick_day_second r :
  valid_time r -> day_second (tick r) = (day_second r + 1) mod 86400.
Proof.
  intro H. destruct (tick_fields r H) as (Es & Em & Eh & _).
  destruct H as (Hh & Hm & Hs).
  unfold day_second. rewrite Es, Em, Eh.
  destruct (Z.eqb_spec (seconds r) 59), (Z.eqb_spec (minutes r) 59),
    (Z.eqb_spec (hours r) 23); cbn [andb];
    match goal with
    | |- ?l = ?x mod 86400 =>
        first [ rewrite (Z.mod_small x) by lia; lia
              | replace x with (l + 1 * 86400) by lia;
                rewrite Z.mod_add by lia; rewrite Z.mod_small by lia; lia ]
    end.
Qed.

Lemma ticks_day_second n r :
  valid_time r ->
  day_second (ticks n r) = (day_second r + Z.of_nat n) mod 86400.
Proof.
  revert r. induction n as [|n IH]; intros r H.
  - simpl. rewrite Z.add_0_r. symmetry. apply Z.mod_small.
    destruct H as (Hh & Hm & Hs). unfold day_second. lia.
  - simpl ticks. rewrite IH by (apply tick_valid, H).
    rewrite tick_day_second by exact H.
    rewrite Zplus_mod_idemp_l. f_equal. lia.
Qed.

(** A valid clock is determined by its second-of-day counter. *)
Lemma valid_time_fields r :
  valid_time r ->
  hours r = day_second r / 3600 /\
  minutes r = (day_second r / 60) mod 60 /\
  seconds r = day_second r mod 60.
Proof.
  intros (Hh & Hm & Hs). unfold day_second.
  repeat split; Z.div_mod_to_equations; lia.
Qed.
(** ** Driver lemmas *)

Lemma land_1_mod x : Z.land x 1 = x mod 2.
Proof. change 1 with (Z.ones 1). rewrite Z.land_ones by lia. reflexivity. Qed.

Lemma bit_of_div x k : 0 <= k -> bit_of x k = (x / 2 ^ k) mod 2.
Proof.
  intro Hk. unfold bit_of. rewrite land_1_mod, Z.shiftr_div_pow2 by exact Hk.
  reflexivity.
Qed.

Lemma nibble_high c :
  bit_of c 4 + 2 * bit_of c 5 + 4 * bit_of c 6 + 8 * bit_of c 7
  = (c / 16) mod 16.
Proof.
  rewrite !bit_of_div by lia.
  change (2 ^ 4) with 16; change (2 ^ 5) with 32;
  change (2 ^ 6) with 64; change (2 ^ 7) with 128.
  Z.div_mod_to_equations. lia.
Qed.

Lemma nibble_low c :
  Z.land c 1 + 2 * bit_of c 1 + 4 * bit_of c 2 + 8 * bit_of c 3 = c mod 16.
Proof.
  rewrite land_1_mod, !bit_of_div by lia.
  change (2 ^ 1) with 2; change (2 ^ 2) with 4; change (2 ^ 3) with 8.
  Z.div_mod_to_equations. lia.
Qed.

(** Whatever the pins held before, the two strobe pulses latch the two
    nibbles written, in order. *)
Lemma two_strobes_wire rs h4 h5 h6 h7 l4 l5 l6 l7 l :
  wire (two_strobes rs h4 h5 h6 h7 l4 l5 l6 l7 l) =
  Wait 2000 :: Latch rs (l4 + 2 * l5 + 4 * l6 + 8 * l7) :: Wait 1 ::
  Latch rs (h4 + 2 * h5 + 4 * h6 + 8 * h7) :: Wait 1 :: wire l.
Proof.
  destruct l as [a b c d e f w].
  cbv [two_strobes seq_ LCD_RS LCD_D4 LCD_D5 LCD_D6 LCD_D7 LCD_EN
       __delay_us __delay_ms data_nibble RD0 RD3 RD4 RD5 RD6 RD7 wire].
  change (1 =? 0) with false. change (1 =? 1) with true.
  change (0 =? 0) with true. change (1000 * 2) with 2000.
  destruct (b =? 1); reflexivity.
Qed.

Lemma LCD_Command_wire c l :
  wire (LCD_Command c l) = rev (frame_byte 0 c) ++ wire l.
Proof.
  change (LCD_Command c l)
    with (two_strobes 0 (bit_of c 4) (bit_of c 5) (bit_of c 6) (bit_of c 7)
            (Z.land c 1) (bit_of c 1) (bit_of c 2) (bit_of c 3) l).
  rewrite two_strobes_wire, nibble_high, nibble_low. reflexivity.
Qed.

Lemma LCD_Data_wire c l :
  wire (LCD_Data c l) = rev (frame_byte 1 c) ++ wire l.
Proof.
  change (LCD_Data c l)
    with (two_strobes 1 (bit_of c 4) (bit_of c 5) (bit_of c 6) (bit_of c 7)
            (Z.land c 1) (bit_of c 1) (bit_of c 2) (bit_of c 3) l).
  rewrite two_strobes_wire, nibble_high, nibble_low. reflexivity.
Qed.

Lemma bus_of_app xs ys : bus_of (xs ++ ys) = bus_of xs ++ bus_of ys.
Proof. unfold bus_of. apply flat_map_app. Qed.

Lemma emits_seq f g xs ys :
  emits f xs -> emits g ys -> emits (f ;; g) (xs ++ ys).
Proof.
  intros Hf Hg l. unfold seq_. rewrite Hg, Hf, bus_of_app, rev_app_distr.
  apply app_assoc.
Qed.

Lemma emits_Command c : emits (LCD_Command c) [Cmd c].
Proof.
  intro l. rewrite LCD_Command_wire. unfold bus_of. cbn [flat_map bus_of_xfer].
  rewrite app_nil_r. reflexivity.
Qed.

Lemma emits_Data c : emits (LCD_Data c) [Dat c].
Proof.
  intro l. rewrite LCD_Data_wire. unfold bus_of. cbn [flat_map bus_of_xfer].
  rewrite app_nil_r. reflexivity.
Qed.

Lemma emits_delay_ms n : emits (__delay_ms n) [Pause (1000 * n)].
Proof. intro l. reflexivity. Qed.

Lemma emits_String s : emits (LCD_String s) (text s).
Proof.
  induction s as [|c s IH]; intro l; [reflexivity|].
  cbn [LCD_String text]. destruct (code c =? 0); [reflexivity|].
  change (Dat (code c) :: text s) with ([Dat (code c)] ++ text s).
  apply (emits_seq (LCD_Data (code c)) (LCD_String s)); [apply emits_Data|apply IH].
Qed.

Lemma emits_Clear : emits LCD_Clear clear_xfers.
Proof.
  apply (emits_seq (LCD_Command 1) (__delay_ms 2) [Cmd 1] [Pause 2000]).
  - apply emits_Command.
  - apply (emits_delay_ms 2).
Qed.

Lemma emits_SetCursor row col :
  emits (LCD_SetCursor row col) [Cmd (cursor_command row col)].
Proof. apply emits_Command. Qed.

Lemma emits_Print_Time h m : emits (LCD_Print_Time h m) (time_xfers h m).
Proof.
  unfold LCD_Print_Time, time_xfers.
  intro l. unfold seq_. rewrite !LCD_Data_wire.
  unfold bus_of. cbn [flat_map bus_of_xfer]. rewrite app_nil_r.
  rewrite !rev_app_distr, <- !app_assoc. reflexivity.
Qed.

Lemma since_app evs old : since old (rev evs ++ old) = evs.
Proof.
  unfold since. rewrite length_app.
  replace (List.length (rev evs) + List.length old - List.length old)%nat
    with (List.length (rev evs) + 0)%nat by lia.
  rewrite firstn_app_2. cbn [firstn]. rewrite app_nil_r. apply rev_involutive.
Qed.

Lemma emits_emitted f xs l : emits f xs -> emitted f l = bus_of xs.
Proof. intro H. unfold emitted. rewrite H. apply since_app. Qed.

(** ** Display lemmas *)

Lemma display_run_app evs1 evs2 d :
  display_run (evs1 ++ evs2) d = display_run evs2 (display_run evs1 d).
Proof. unfold display_run. apply fold_left_app. Qed.

Lemma byte_of_nibbles b : 16 * ((b / 16) mod 16) + b mod 16 = u8 b.
Proof. unfold u8. Z.div_mod_to_equations. lia. Qed.

Lemma xfer_step_pending d x : pending d = None -> pending (xfer_step d x) = None.
Proof.
  intro H. destruct x as [b|b|us]; cbn [xfer_step]; [| reflexivity | exact H].
  unfold exec_command.
  destruct (u8 b =? 1); [reflexivity|].
  destruct (u8 b >=? 128); [reflexivity|].
  destruct ((u8 b =? 2) || (u8 b =? 3)); reflexivity.
Qed.

Lemma display_run_xfer x d :
  pending d = None -> display_run (bus_of_xfer x) d = xfer_step d x.
Proof.
  intro H. destruct x as [b|b|us]; unfold display_run, bus_of_xfer, frame_byte;
    cbn [fold_left display_step pending]; rewrite ?H;
    cbn [pending Z.eqb]; rewrite ?byte_of_nibbles; reflexivity.
Qed.

Lemma display_run_bus_of xs d :
  pending d = None -> display_run (bus_of xs) d = xfer_run xs d.
Proof.
  revert d. induction xs as [|x xs IH]; intros d H; [reflexivity|].
  change (bus_of (x :: xs)) with (bus_of_xfer x ++ bus_of xs).
  rewrite display_run_app, display_run_xfer by exact H.
  cbn [xfer_run fold_left]. apply IH, xfer_step_pending, H.
Qed.

Lemma xfer_run_pending xs d : pending d = None -> pending (xfer_run xs d) = None.
Proof.
  revert d. induction xs as [|x xs IH]; intros d H; [exact H|].
  cbn [xfer_run fold_left]. apply IH, xfer_step_pending, H.
Qed.

Lemma xfer_run_app (xs ys : list xfer) d :
  xfer_run (xs ++ ys) d = xfer_run ys (xfer_run xs d).
Proof. unfold xfer_run. apply fold_left_app. Qed.

Lemma LCD_String_wire s l :
  wire (LCD_String s l) = rev (bus_of (text s)) ++ wire l.
Proof. apply emits_String. Qed.

Lemma LCD_SetCursor_wire r c l :
  wire (LCD_SetCursor r c l) = rev (bus_of [Cmd (cursor_command r c)]) ++ wire l.
Proof. apply emits_SetCursor. Qed.

Lemma LCD_Clear_wire l :
  wire (LCD_Clear l) = rev (bus_of clear_xfers) ++ wire l.
Proof. apply emits_Clear. Qed.

Lemma LCD_Print_Time_wire h m l :
  wire (LCD_Print_Time h m l) = rev (bus_of (time_xfers h m)) ++ wire l.
Proof. apply emits_Print_Time. Qed.

Ltac bus_steps :=
  repeat first [ rewrite LCD_String_wire | rewrite LCD_SetCursor_wire
               | rewrite LCD_Clear_wire | rewrite LCD_Print_Time_wire ].

(** ** The status screen *)

Ltac conj_split := repeat match goal with |- _ /\ _ => split end.

Lemma basic_Update_Display_emits (night motion on : bool) :
  emits (Basic.Update_Display (bit night) (bit motion)
           (if on then FULL else OFF))
        (status_xfers night motion on).
Proof.
  intro l. unfold Basic.Update_Display, seq_.
  destruct night, motion, on; bus_steps; vm_compute; reflexivity.
Qed.

Lemma extra_Update_Display_emits (night motion on : bool) :
  emits (Extra.Update_Display (bit night) (bit motion)
           (if on then FULL else OFF))
        (status_xfers night motion on).
Proof.
  intro l. unfold Extra.Update_Display, seq_.
  destruct night, motion, on; bus_steps; vm_compute; reflexivity.
Qed.

Lemma status_xfers_render render night motion on :
  emits render (status_xfers night motion on) ->
  renders_status render night motion on.
Proof.
  intros H l l' ac mem. cbv zeta.
  rewrite (emits_emitted _ _ l H), (emits_emitted _ _ l' H),
    (emits_emitted _ _ (render l) H).
  rewrite (display_run_bus_of _ (mkDisplay None ac mem)) by reflexivity.
  rewrite (display_run_bus_of _ (xfer_run _ _))
    by (apply xfer_run_pending; reflexivity).
  rewrite (display_run_bus_of _ blank) by reflexivity.
  split; [reflexivity|]. split; [reflexivity|].
  destruct night, motion, on; conj_split; vm_compute; reflexivity.
Qed.
(** ** The light decision *)

Lemma light_control_table night motion :
  light_control (bit night) (bit motion)
  = if night && motion then (1, FULL) else (0, OFF).
Proof. destruct night, motion; reflexivity. Qed.

(** ** The logging build, field by field *)

Lemma edge_bits prev night :
  Extra.edge (bit prev) (bit night)
  = if prev then (if night then None else Some Extra.SUNRISE)
    else (if night then Some Extra.SUNSET else None).
Proof. destruct prev, night; reflexivity. Qed.

Lemma main_cycle_latch s p m :
  Extra.prevLDRState (Extra.main_cycle s p m) = bit (RB0 s).
Proof.
  unfold Extra.main_cycle.
  destruct (light_control (bit (RB0 s)) (bit (RD2 s))) as [rc1 br].
  reflexivity.
Qed.

Lemma main_cycle_records s p m :
  let m1 := Extra.detect (bit (RB0 s)) p m in
  let m' := Extra.main_cycle s p m in
  Extra.sunrise_h m' = Extra.sunrise_h m1 /\
  Extra.sunrise_m m' = Extra.sunrise_m m1 /\
  Extra.sunset_h m' = Extra.sunset_h m1 /\
  Extra.sunset_m m' = Extra.sunset_m m1.
Proof.
  cbv zeta. unfold Extra.main_cycle.
  destruct (light_control (bit (RB0 s)) (bit (RD2 s))) as [rc1 br].
  repeat split; reflexivity.
Qed.

Lemma main_cycle_RC1 s p m :
  Extra.RC1 (Extra.main_cycle s p m)
  = fst (light_control (bit (RB0 s)) (bit (RD2 s))).
Proof.
  unfold Extra.main_cycle.
  destruct (light_control (bit (RB0 s)) (bit (RD2 s))) as [rc1 br].
  reflexivity.
Qed.

Lemma basic_main_cycle_RC1 s irq m :
  Basic.RC1 (Basic.main_cycle s irq m)
  = fst (light_control (bit (RB0 s)) (bit (RD2 s))).
Proof.
  unfold Basic.main_cycle.
  destruct (light_control (bit (RB0 s)) (bit (RD2 s))) as [rc1 br].
  reflexivity.
Qed.

(** The records after a detection block, by the branch taken. *)
Lemma detect_records n p m :
  let c := ticks (Extra.irq_before p) (Extra.clock m) in
  let m' := Extra.detect n p m in
  match Extra.edge (Extra.prevLDRState m) n with
  | Some Extra.SUNRISE =>
      Extra.sunrise_h m' = hours c /\
      Extra.sunrise_m m' = minutes (ticks (Extra.irq_between p) c) /\
      Extra.sunset_h m' = Extra.sunset_h m /\
      Extra.sunset_m m' = Extra.sunset_m m
  | Some Extra.SUNSET =>
      Extra.sunset_h m' = hours c /\
      Extra.sunset_m m' = minutes (ticks (Extra.irq_between p) c) /\
      Extra.sunrise_h m' = Extra.sunrise_h m /\
      Extra.sunrise_m m' = Extra.sunrise_m m
  | None =>
      Extra.sunrise_h m' = Extra.sunrise_h m /\
      Extra.sunrise_m m' = Extra.sunrise_m m /\
      Extra.sunset_h m' = Extra.sunset_h m /\
      Extra.sunset_m m' = Extra.sunset_m m
  end.
Proof.
  cbv zeta. unfold Extra.detect.
  change (Extra.prevLDRState
            (Extra.on_clock (ticks (Extra.irq_before p)) m))
    with (Extra.prevLDRState m).
  destruct (Extra.edge (Extra.prevLDRState m) n) as [[|]|];
    repeat split; reflexivity.
Qed.

(** The event an iteration logs, in terms of the clock. *)
Lemma logged_stamp n p m :
  let c := ticks (Extra.irq_before p) (Extra.clock m) in
  Extra.logged n p m =
  match Extra.edge (Extra.prevLDRState m) n with
  | Some k => Some (k, hours c, minutes (ticks (Extra.irq_between p) c))
  | None => None
  end.
Proof.
  cbv zeta. unfold Extra.logged.
  pose proof (detect_records n p m) as H. cbv zeta in H.
  destruct (Extra.edge (Extra.prevLDRState m) n) as [[|]|];
    [ destruct H as (-> & -> & _) | destruct H as (-> & -> & _) | ];
    reflexivity.
Qed.

Lemma run_cons s p rest m :
  Extra.run ((s, p) :: rest) m =
  (fst (Extra.run rest (Extra.main_cycle s p m)),
   Extra.cycle_event s p m :: snd (Extra.run rest (Extra.main_cycle s p m))).
Proof.
  cbn [Extra.run].
  destruct (Extra.run rest (Extra.main_cycle s p m)) as [m' evs].
  reflexivity.
Qed.

Lemma startup_latch ldr irq m :
  Extra.prevLDRState (Extra.startup ldr irq m) = bit ldr.
Proof. reflexivity. Qed.

(** ** The sunrise/sunset screen *)

Lemma screen_at_wait_found us evs rest d :
  no_wait us evs = true ->
  screen_at_wait us (evs ++ Wait us :: rest) d
  = Some (screen (display_run evs d)).
Proof.
  revert d. induction evs as [|e evs IH]; intros d H.
  - cbn [app screen_at_wait]. rewrite Z.eqb_refl. reflexivity.
  - destruct e as [rs n|n]; cbn [no_wait] in H.
    + cbn [app screen_at_wait]. rewrite IH by exact H. reflexivity.
    + apply andb_true_iff in H. destruct H as [Hn H].
      apply negb_true_iff in Hn.
      cbn [app screen_at_wait]. rewrite Hn, IH by exact H. reflexivity.
Qed.

Lemma time_xfers_small h m :
  0 <= h <= 255 -> 0 <= m <= 255 ->
  time_xfers h m =
  [Dat (48 + h / 10); Dat (48 + h mod 10); Dat 58;
   Dat (48 + m / 10); Dat (48 + m mod 10)].
Proof.
  intros Hh Hm. unfold time_xfers, u8.
  rewrite (Z.mod_small (h / 10 + 48)), (Z.mod_small (h mod 10 + 48)),
    (Z.mod_small (m / 10 + 48)), (Z.mod_small (m mod 10 + 48))
    by (Z.div_mod_to_equations; lia).
  rewrite !(Z.add_comm 48). reflexivity.
Qed.

Lemma time_cells_read h m :
  0 <= h <= 99 -> 0 <= m <= 99 -> reads_as (time_cells h m) h m.
Proof.
  intros Hh Hm. unfold reads_as, time_cells, is_digit, digit_value.
  change (code ":") with 58.
  repeat match goal with |- _ /\ _ => split end;
    try reflexivity; Z.div_mod_to_equations; lia.
Qed.

Lemma Show_Sunrise_Sunset_wire m :
  wire (Extra.panel (Extra.Show_Sunrise_Sunset m)) =
  rev (bus_of (overlay_xfers (Extra.sunrise_h m) (Extra.sunrise_m m)
                 (Extra.sunset_h m) (Extra.sunset_m m))
       ++ Wait Extra.dwell_us :: bus_of clear_xfers)
  ++ wire (Extra.panel m).
Proof.
  unfold Extra.Show_Sunrise_Sunset, Extra.on_panel, seq_.
  cbn [Extra.panel].
  rewrite LCD_Clear_wire.
  change (wire (__delay_ms 5000 ?x)) with (Wait 5000000 :: wire x).
  bus_steps.
  unfold overlay_xfers, Extra.dwell_us.
  rewrite !bus_of_app.
  change (bus_of (Cmd 128 :: ?r)) with (bus_of [Cmd 128] ++ bus_of r).
  rewrite !bus_of_app.
  change (bus_of (Cmd 192 :: ?r)) with (bus_of [Cmd 192] ++ bus_of r).
  rewrite !bus_of_app.
  change (cursor_command 1 1) with 128. change (cursor_command 2 1) with 192.
  rewrite !rev_app_distr. cbn [rev app].
  rewrite <- !app_assoc. reflexivity.
Qed.

Lemma overlay_no_dwell a b c d e f g h :
  no_wait Extra.dwell_us
    (bus_of (clear_xfers ++
             Cmd 128 :: text "Sunrise:" ++ [Dat a; Dat b; Dat 58; Dat c; Dat d] ++
             Cmd 192 :: text "Sunset :" ++ [Dat e; Dat f; Dat 58; Dat g; Dat h]))
  = true.
Proof. vm_compute. reflexivity. Qed.

Lemma overlay_cells a b c d e f g h ac mem :
  screen (xfer_run
            (clear_xfers ++
             Cmd 128 :: text "Sunrise:" ++ [Dat a; Dat b; Dat 58; Dat c; Dat d] ++
             Cmd 192 :: text "Sunset :" ++ [Dat e; Dat f; Dat 58; Dat g; Dat h])
            (mkDisplay None ac mem))
  = ((codes "Sunrise:" ++ [u8 a; u8 b; 58; u8 c; u8 d] ++ codes "   ")%list,
     (codes "Sunset :" ++ [u8 e; u8 f; 58; u8 g; u8 h] ++ codes "   ")%list).
Proof. vm_compute. reflexivity. Qed.

Lemma cleared_screen xs d :
  screen (xfer_run (xs ++ clear_xfers) d) = (blank_row, blank_row).
Proof. rewrite xfer_run_app. reflexivity. Qed.

(** The sunrise/sunset screen during the dwell and after it, for records
    that fit a byte. *)
Lemma overlay_shown m ac mem :
  0 <= Extra.sunrise_h m <= 255 -> 0 <= Extra.sunrise_m m <= 255 ->
  0 <= Extra.sunset_h m <= 255 -> 0 <= Extra.sunset_m m <= 255 ->
  let xs := overlay_xfers (Extra.sunrise_h m) (Extra.sunrise_m m)
              (Extra.sunset_h m) (Extra.sunset_m m) in
  let d0 := mkDisplay None ac mem in
  overlay_bus m = bus_of xs ++ Wait Extra.dwell_us :: bus_of clear_xfers /\
  screen_at_wait Extra.dwell_us (overlay_bus m) d0 =
    Some (overlay_screen (Extra.sunrise_h m) (Extra.sunrise_m m)
            (Extra.sunset_h m) (Extra.sunset_m m)) /\
  screen (display_run (overlay_bus m) d0) = (blank_row, blank_row).
Proof.
  intros H1 H2 H3 H4. cbv zeta.
  assert (E : overlay_bus m =
              bus_of (overlay_xfers (Extra.sunrise_h m) (Extra.sunrise_m m)
                        (Extra.sunset_h m) (Extra.sunset_m m))
              ++ Wait Extra.dwell_us :: bus_of clear_xfers).
  { unfold overlay_bus. rewrite Show_Sunrise_Sunset_wire. apply since_app. }
  split; [exact E|]. rewrite E. clear E.
  unfold overlay_xfers.
  rewrite (time_xfers_small _ _ H1 H2), (time_xfers_small _ _ H3 H4).
  split.
  - rewrite screen_at_wait_found by apply overlay_no_dwell.
    rewrite display_run_bus_of by reflexivity.
    rewrite overlay_cells. unfold overlay_screen, time_cells, u8.
    repeat match goal with
    | |- context [(48 + ?x) mod 256] =>
        rewrite (Z.mod_small (48 + x)) by (Z.div_mod_to_equations; lia)
    end.
    reflexivity.
  - change (Wait Extra.dwell_us :: bus_of clear_xfers)
      with (bus_of (Pause Extra.dwell_us :: clear_xfers)).
    rewrite <- bus_of_app.
    rewrite display_run_bus_of by reflexivity.
    change (Pause Extra.dwell_us :: clear_xfers)
      with ([Pause Extra.dwell_us] ++ clear_xfers).
    rewrite app_assoc. apply cleared_screen.
Qed.
(** ** Runs of the logging build *)

Lemma latches_map inputs m :
  Extra.latches inputs m = map (fun sp => bit (RB0 (fst sp))) inputs.
Proof.
  revert m. induction inputs as [|[s p] rest IH]; intro m; [reflexivity|].
  cbn [Extra.latches map fst]. rewrite main_cycle_latch, IH. reflexivity.
Qed.

Lemma main_cycle_clock s p m :
  Extra.clock (Extra.main_cycle s p m) =
  ticks (Extra.irq_after p)
    (match Extra.edge (Extra.prevLDRState m) (bit (RB0 s)) with
     | Some _ =>
         ticks (Extra.irq_between p)
           (ticks (Extra.irq_before p) (Extra.clock m))
     | None => ticks (Extra.irq_before p) (Extra.clock m)
     end).
Proof.
  unfold Extra.main_cycle.
  destruct (light_control (bit (RB0 s)) (bit (RD2 s))) as [rc1 br].
  unfold Extra.detect.
  change (Extra.prevLDRState
            (Extra.on_clock (ticks (Extra.irq_before p)) m))
    with (Extra.prevLDRState m).
  destruct (Extra.edge (Extra.prevLDRState m) (bit (RB0 s))) as [[|]|];
    reflexivity.
Qed.

Lemma main_cycle_clock_valid s p m :
  valid_time (Extra.clock m) -> valid_time (Extra.clock (Extra.main_cycle s p m)).
Proof.
  intro H. rewrite main_cycle_clock.
  destruct (Extra.edge (Extra.prevLDRState m) (bit (RB0 s)));
    repeat apply ticks_valid; exact H.
Qed.

Lemma run_clock_valid inputs m :
  valid_time (Extra.clock m) ->
  valid_time (Extra.clock (fst (Extra.run inputs m))).
Proof.
  revert m. induction inputs as [|[s p] rest IH]; intros m H; [exact H|].
  rewrite run_cons. cbn [fst]. apply IH, main_cycle_clock_valid, H.
Qed.

Lemma startup_clock ldr irq m :
  Extra.clock (Extra.startup ldr irq m) = ticks irq (Extra.clock m).
Proof. reflexivity. Qed.

Lemma rtc_boot_valid : valid_time rtc_boot.
Proof. unfold valid_time, rtc_boot; cbn; lia. Qed.

(** The records after one iteration, by the event it logged. *)
Lemma main_cycle_record_kept k s p m :
  is_kind k (Extra.cycle_event s p m) = false ->
  record_of k (Extra.main_cycle s p m) = record_of k m.
Proof.
  intro H. unfold Extra.cycle_event in H. rewrite logged_stamp in H.
  destruct (main_cycle_records s p m) as (E1 & E2 & E3 & E4).
  pose proof (detect_records (bit (RB0 s)) p m) as D. cbv zeta in D.
  unfold record_of.
  destruct (Extra.edge (Extra.prevLDRState m) (bit (RB0 s))) as [[|]|];
    destruct k; cbn [is_kind] in H; try discriminate;
    rewrite ?E1, ?E2, ?E3, ?E4;
    destruct D as (D1 & D2 & D3 & D4); congruence.
Qed.

(** A record no event of its kind has touched still holds its initial
    value. *)
Lemma run_record_kept k inputs m :
  never k (snd (Extra.run inputs m)) = true ->
  record_of k (fst (Extra.run inputs m)) = record_of k m.
Proof.
  revert m. induction inputs as [|[s p] rest IH]; intros m H; [reflexivity|].
  rewrite run_cons in H |- *. cbn [fst snd never forallb] in H |- *.
  apply andb_true_iff in H. destruct H as [H1 H2].
  apply negb_true_iff in H1.
  fold (never k (snd (Extra.run rest (Extra.main_cycle s p m)))) in H2.
  rewrite (IH _ H2). apply main_cycle_record_kept, H1.
Qed.

(** The records always hold clock values. *)
Lemma main_cycle_records_valid s p m :
  valid_time (Extra.clock m) -> records_valid m ->
  records_valid (Extra.main_cycle s p m).
Proof.
  intros Hc (R1 & R2 & R3 & R4).
  destruct (main_cycle_records s p m) as (E1 & E2 & E3 & E4).
  pose proof (detect_records (bit (RB0 s)) p m) as D. cbv zeta in D.
  pose proof (ticks_valid (Extra.irq_before p) _ Hc) as (Vh & _ & _).
  pose proof (ticks_valid (Extra.irq_between p) _
                (ticks_valid (Extra.irq_before p) _ Hc)) as (_ & Vm & _).
  unfold records_valid. rewrite E1, E2, E3, E4.
  destruct (Extra.edge (Extra.prevLDRState m) (bit (RB0 s))) as [[|]|];
    destruct D as (D1 & D2 & D3 & D4); rewrite D1, D2, D3, D4; lia.
Qed.

Lemma run_records_valid inputs m :
  valid_time (Extra.clock m) -> records_valid m ->
  records_valid (fst (Extra.run inputs m)).
Proof.
  revert m. induction inputs as [|[s p] rest IH]; intros m Hc Hr; [exact Hr|].
  rewrite run_cons. cbn [fst].
  apply IH; [apply main_cycle_clock_valid, Hc
            |apply main_cycle_records_valid; assumption].
Qed.

(** ** The bus traffic of an iteration *)

Lemma stamped_panel k p m : Extra.panel (stamped k p m) = Extra.panel m.
Proof. destruct k; reflexivity. Qed.

Lemma stamped_records k p m :
  let c := ticks (Extra.irq_before p) (Extra.clock m) in
  record_of k (stamped k p m)
    = (hours c, minutes (ticks (Extra.irq_between p) c)) /\
  record_of (other k) (stamped k p m) = record_of (other k) m.
Proof. destruct k; split; reflexivity. Qed.

Lemma detect_panel n p m :
  Extra.panel (Extra.detect n p m) =
  match Extra.edge (Extra.prevLDRState m) n with
  | Some k => Extra.panel (Extra.Show_Sunrise_Sunset (stamped k p m))
  | None => Extra.panel m
  end.
Proof.
  unfold Extra.detect.
  change (Extra.prevLDRState
            (Extra.on_clock (ticks (Extra.irq_before p)) m))
    with (Extra.prevLDRState m).
  destruct (Extra.edge (Extra.prevLDRState m) n) as [[|]|]; reflexivity.
Qed.

Lemma main_cycle_panel s p m :
  Extra.panel (Extra.main_cycle s p m) =
  __delay_ms 150
    (Extra.Update_Display (bit (RB0 s)) (bit (RD2 s))
       (if RB0 s && RD2 s then FULL else OFF)
       (Extra.panel (Extra.detect (bit (RB0 s)) p m))).
Proof.
  unfold Extra.main_cycle. rewrite light_control_table.
  destruct (RB0 s && RD2 s); reflexivity.
Qed.

(** An iteration that detects an edge puts the sunrise/sunset screen, the
    dwell and a clear on the bus before the status render. *)
Lemma cycle_bus_edge k s p m :
  Extra.edge (Extra.prevLDRState m) (bit (RB0 s)) = Some k ->
  let m1 := stamped k p m in
  cycle_bus s p m =
    bus_of (overlay_xfers (Extra.sunrise_h m1) (Extra.sunrise_m m1)
              (Extra.sunset_h m1) (Extra.sunset_m m1))
    ++ Wait Extra.dwell_us ::
       (bus_of clear_xfers ++
        bus_of (status_xfers (RB0 s) (RD2 s) (RB0 s && RD2 s)) ++
        [Wait 150000]).
Proof.
  intros E. cbv zeta. unfold cycle_bus.
  rewrite main_cycle_panel, detect_panel, E.
  change (wire (__delay_ms 150 ?x)) with (Wait 150000 :: wire x).
  rewrite (extra_Update_Display_emits (RB0 s) (RD2 s) (RB0 s && RD2 s)).
  rewrite Show_Sunrise_Sunset_wire, stamped_panel.
  match goal with
  | |- since ?old (?w :: rev ?a ++ rev (?b ++ ?c :: ?d) ++ ?old) = _ =>
      replace (w :: rev a ++ rev (b ++ c :: d) ++ old)
        with (rev (b ++ c :: (d ++ a ++ [w])) ++ old)
  end.
  - apply since_app.
  - rewrite !rev_app_distr. cbn [rev]. rewrite !rev_app_distr. cbn [rev app].
    rewrite <- ?app_assoc. cbn [app]. rewrite <- ?app_assoc. reflexivity.
Qed.

(** Without an edge an iteration only renders the status. *)
Lemma cycle_bus_quiet s p m :
  Extra.edge (Extra.prevLDRState m) (bit (RB0 s)) = None ->
  cycle_bus s p m =
    bus_of (status_xfers (RB0 s) (RD2 s) (RB0 s && RD2 s)) ++ [Wait 150000].
Proof.
  intros E. unfold cycle_bus.
  rewrite main_cycle_panel, detect_panel, E.
  change (wire (__delay_ms 150 ?x)) with (Wait 150000 :: wire x).
  rewrite (extra_Update_Display_emits (RB0 s) (RD2 s) (RB0 s && RD2 s)).
  change (Wait 150000 :: ?a ++ ?old) with ((Wait 150000 :: a) ++ old).
  replace (Wait 150000 :: rev (bus_of (status_xfers (RB0 s) (RD2 s) (RB0 s && RD2 s))))
    with (rev (bus_of (status_xfers (RB0 s) (RD2 s) (RB0 s && RD2 s)) ++ [Wait 150000]))
    by (rewrite rev_app_distr; reflexivity).
  apply since_app.
Qed.
(** ** Iterations against their log entries *)

Lemma detect_stamped n p m k :
  Extra.edge (Extra.prevLDRState m) n = Some k ->
  Extra.sunrise_h (Extra.detect n p m) = Extra.sunrise_h (stamped k p m) /\
  Extra.sunrise_m (Extra.detect n p m) = Extra.sunrise_m (stamped k p m) /\
  Extra.sunset_h (Extra.detect n p m) = Extra.sunset_h (stamped k p m) /\
  Extra.sunset_m (Extra.detect n p m) = Extra.sunset_m (stamped k p m).
Proof.
  intro E. unfold Extra.detect.
  change (Extra.prevLDRState
            (Extra.on_clock (ticks (Extra.irq_before p)) m))
    with (Extra.prevLDRState m).
  rewrite E. destruct k; repeat split; reflexivity.
Qed.

(** What the detection block stored and what went over the bus always
    agree with the event the iteration is said to log. *)
Lemma cycle_event_matches s p m :
  iteration_matches (Extra.cycle_event s p m) s p m.
Proof.
  unfold iteration_matches, Extra.cycle_event, status_bus.
  rewrite logged_stamp.
  destruct (main_cycle_records s p m) as (E1 & E2 & E3 & E4).
  pose proof (detect_records (bit (RB0 s)) p m) as D. cbv zeta in D.
  destruct (Extra.edge (Extra.prevLDRState m) (bit (RB0 s))) as [k|] eqn:E.
  - destruct (detect_stamped (bit (RB0 s)) p m k E) as (S1 & S2 & S3 & S4).
    split; [|split].
    + destruct k; destruct D as (D1 & D2 & _); unfold record_of;
        rewrite ?E1, ?E2, ?E3, ?E4, D1, D2; reflexivity.
    + destruct k; destruct D as (_ & _ & D3 & D4); unfold record_of, other;
        rewrite ?E1, ?E2, ?E3, ?E4, D3, D4; reflexivity.
    + rewrite (cycle_bus_edge k s p m E).
      rewrite E1, E2, E3, E4, S1, S2, S3, S4. reflexivity.
  - destruct D as (D1 & D2 & D3 & D4).
    split; [|split].
    + unfold record_of. rewrite E1, E2, D1, D2. reflexivity.
    + unfold record_of. rewrite E3, E4, D3, D4. reflexivity.
    + apply cycle_bus_quiet, E.
Qed.

Lemma run_matches_log inputs m :
  run_matches inputs m (snd (Extra.run inputs m)).
Proof.
  revert m. induction inputs as [|[s p] rest IH]; intro m; [exact I|].
  rewrite run_cons. cbn [snd run_matches].
  split; [apply cycle_event_matches|apply IH].
Qed.

(** ** Stamps against the clock *)

Lemma passed_through_last k c : In (ticks k c) (Extra.passed_through k c).
Proof.
  revert c. induction k as [|k IH]; intro c.
  - left. reflexivity.
  - cbn [ticks Extra.passed_through]. right. apply IH.
Qed.

(** A stamp whose two reads saw the same hour is the hour and minute of
    the clock state at the second read. *)
Lemma stamp_is_snapshot k c :
  hours (ticks k c) = hours c ->
  Extra.is_snapshot_of (hours c) (minutes (ticks k c))
    (Extra.passed_through k c) = true.
Proof.
  intro H. unfold Extra.is_snapshot_of. apply existsb_exists.
  exists (ticks k c). split; [apply passed_through_last|].
  rewrite H, !Z.eqb_refl. reflexivity.
Qed.
(** * Properties *)

(** C1.  The light decision follows the table: by day the light is OFF
    whatever the motion line says; at night it is OFF without motion and
    FULL with motion.  In both builds an iteration of the main loop leaves
    the actuator line RC1 high exactly when the decision is FULL. *)
Theorem light_decision_table (s : sample) (irq : nat) (p : Extra.preempt)
    (mb : Basic.mcu) (me : Extra.mcu) :
  let decision := snd (light_control (bit (RB0 s)) (bit (RD2 s))) in
  decision =
    (match RB0 s, RD2 s with
     | false, _ => OFF
     | true, false => OFF
     | true, true => FULL
     end) /\
  (Basic.RC1 (Basic.main_cycle s irq mb) = 1 <-> decision = FULL) /\
  (Basic.RC1 (Basic.main_cycle s irq mb) = 0 <-> decision <> FULL) /\
  (Extra.RC1 (Extra.main_cycle s p me) = 1 <-> decision = FULL) /\
  (Extra.RC1 (Extra.main_cycle s p me) = 0 <-> decision <> FULL).
Proof.
  cbv zeta. rewrite basic_main_cycle_RC1, main_cycle_RC1, light_control_table.
  unfold FULL, OFF.
  destruct (RB0 s), (RD2 s); cbn [andb fst snd];
    repeat split; intros; try reflexivity; try discriminate; try congruence.
Qed.

(** C2.  After n ticks from 00:00:00 the clock reads
    (n/3600 mod 24, n/60 mod 60, n mod 60); after 86,400 ticks it reads
    00:00:00 again. *)
Theorem ticks_from_midnight (n : nat) :
  snapshot (ticks n midnight) =
    ((Z.of_nat n / 3600) mod 24, (Z.of_nat n / 60) mod 60, Z.of_nat n mod 60)
  /\ snapshot (ticks (Z.to_nat 86400) midnight) = (0, 0, 0).
Proof.
  assert (Hv : valid_time midnight) by (unfold valid_time, midnight; cbn; lia).
  assert (G : forall k, snapshot (ticks k midnight) =
    ((Z.of_nat k / 3600) mod 24, (Z.of_nat k / 60) mod 60, Z.of_nat k mod 60)).
  { intro k.
    pose proof (ticks_valid k midnight Hv) as Hk.
    destruct (valid_time_fields _ Hk) as (Eh & Em & Es).
    pose proof (ticks_day_second k midnight Hv) as D.
    change (day_second midnight) with 0 in D. rewrite Z.add_0_l in D.
    unfold snapshot. rewrite Eh, Em, Es, D.
    pose proof (Nat2Z.is_nonneg k) as Hn.
    f_equal; [f_equal|]; Z.div_mod_to_equations; lia. }
  split; [apply G|].
  rewrite G. rewrite Z2Nat.id by lia. reflexivity.
Qed.

(** C4.  The clock is always a valid wall-clock triple: the boot value
    22:00:00 is one, and the interrupt routine maps a valid triple to a
    valid triple.  When a tick is pending, seconds 59 wraps to 0 and carries
    into minutes, minutes 59 wraps to 0 and carries into hours, and hours 23
    wraps to 0; without a pending tick the routine changes nothing. *)
Theorem clock_invariant (r : rtc) (H : valid_time r) :
  valid_time rtc_boot /\
  valid_time (ISR r) /\
  ISR r =
    (if TMR2IF r then
       {| seconds := if seconds r =? 59 then 0 else seconds r + 1;
          minutes := if seconds r =? 59
                     then (if minutes r =? 59 then 0 else minutes r + 1)
                     else minutes r;
          hours := if (seconds r =? 59) && (minutes r =? 59)
                   then (if hours r =? 23 then 0 else hours r + 1)
                   else hours r;
          TMR2IF := false |}
     else r).
Proof.
  split; [unfold valid_time, rtc_boot; cbn; lia|].
  split; [apply ISR_valid, H|].
  destruct (TMR2IF r) eqn:E.
  - rewrite (ISR_pending r E).
    destruct (tick_fields r H) as (Es & Em & Eh & Ef).
    rewrite <- Es, <- Em, <- Eh, <- Ef. destruct (tick r); reflexivity.
  - apply ISR_idle, E.
Qed.

Lemma clock_invariant_witness :
  valid_time (mkRtc 59 59 23 true) /\
  ISR (mkRtc 59 59 23 true) = mkRtc 0 0 0 false.
Proof.
  assert (H : valid_time (mkRtc 59 59 23 true))
    by (unfold valid_time; cbn; lia).
  split; [exact H|].
  destruct (clock_invariant (mkRtc 59 59 23 true) H) as (_ & _ & E).
  exact E.
Defined.

(** C6 (as the code has it).  [LCD_SetCursor] checks neither argument: for
    every row and column it returns, having sent the single command byte
    (base + col - 1) mod 256, where base is 0x80 for row 1 and 0xC0 for
    every other row value. *)
Theorem LCD_SetCursor_unchecked (row col : Z) (l : lcd) :
  call_LCD_SetCursor row col l
    = Returned (LCD_Command (cursor_command row col) l) /\
  cursor_command row col
    = ((if row =? 1 then 128 else 192) + col - 1) mod 256 /\
  emitted (LCD_SetCursor row col) l = frame_byte 0 (cursor_command row col).
Proof.
  split; [reflexivity|]. split; [reflexivity|].
  rewrite (emits_emitted _ _ l (emits_SetCursor row col)).
  unfold bus_of. cbn [flat_map bus_of_xfer]. apply app_nil_r.
Qed.

(** C6, the claim as stated, fails: row 3, column 17 is off the screen, and
    the call returns after sending command byte 0xD0. *)
Lemma LCD_SetCursor_off_screen_returns :
  let l := mkLcd 0 0 0 0 0 0 [] in
  on_screen 3 17 = false /\
  call_LCD_SetCursor 3 17 l <> PreconditionViolation /\
  call_LCD_SetCursor 3 17 l = Returned (LCD_Command 208 l) /\
  rev (wire (LCD_SetCursor 3 17 l))
    = [Wait 1; Latch 0 13; Wait 1; Latch 0 0; Wait 2000].
Proof.
  cbv zeta. split; [reflexivity|]. split; [discriminate|].
  split; reflexivity.
Qed.

(** C7.  The status render is a function of its inputs alone: in both
    builds it puts the same byte transfers on the bus from every pin state,
    so a second call with the same sample and decision leaves the same
    screen as the first; the screen shows "Night " or "Day   ", then "M:",
    then "YES " or "NO  " from row 1 column 1, and "Light:" then "ON   " or
    "OFF  " from row 2 column 1, and leaves the cells to the right of the
    text as they were (blank, on a cleared display). *)
Theorem Update_Display_pure (s : sample) (full : bool) :
  renders_status
    (Basic.Update_Display (bit (RB0 s)) (bit (RD2 s))
       (if full then FULL else OFF))
    (RB0 s) (RD2 s) full /\
  renders_status
    (Extra.Update_Display (bit (RB0 s)) (bit (RD2 s))
       (if full then FULL else OFF))
    (RB0 s) (RD2 s) full.
Proof.
  split; apply status_xfers_render.
  - apply basic_Update_Display_emits.
  - apply extra_Update_Display_emits.
Qed.

(** C8.  For stored records (hour 0..23, minute 0..59) the sunrise/sunset
    screen is: a clear; "Sunrise:" and the sunrise time from row 1 column 1;
    "Sunset :" and the sunset time from row 2 column 1; a dwell of 5000 ms;
    a second clear.  Each time is two decimal digits, a colon and two
    decimal digits, with leading zeros.  During the dwell the screen shows
    exactly these two rows; afterwards it is blank. *)
Theorem Show_Sunrise_Sunset_overlay (m : Extra.mcu) (ac : Z) (mem : Z -> Z)
    (H : records_valid m) :
  let rh := Extra.sunrise_h m in
  let rm := Extra.sunrise_m m in
  let sh := Extra.sunset_h m in
  let sm := Extra.sunset_m m in
  let d0 := mkDisplay None ac mem in
  overlay_bus m =
    bus_of (clear_xfers ++
            Cmd 128 :: text "Sunrise:" ++ time_xfers rh rm ++
            Cmd 192 :: text "Sunset :" ++ time_xfers sh sm) ++
    Wait 5000000 :: bus_of clear_xfers /\
  screen_at_wait 5000000 (overlay_bus m) d0 =
    Some ((codes "Sunrise:" ++ time_cells rh rm ++ codes "   ")%list,
          (codes "Sunset :" ++ time_cells sh sm ++ codes "   ")%list) /\
  reads_as (time_cells rh rm) rh rm /\
  reads_as (time_cells sh sm) sh sm /\
  screen (display_run (overlay_bus m) d0) = (blank_row, blank_row).
Proof.
  destruct H as (R1 & R2 & R3 & R4). cbv zeta.
  destruct (overlay_shown m ac mem) as (E1 & E2 & E3); try lia.
  split; [exact E1|]. split; [exact E2|].
  split; [apply time_cells_read; lia|].
  split; [apply time_cells_read; lia|exact E3].
Qed.

Lemma Show_Sunrise_Sunset_overlay_witness :
  let m := Extra.mkMcu (mkRtc 0 0 22 false) 6 5 18 42 1 0
             (mkLcd 0 0 0 0 0 0 []) in
  records_valid m /\
  screen_at_wait 5000000 (overlay_bus m) blank =
    Some (codes "Sunrise:06:05   ", codes "Sunset :18:42   ").
Proof.
  cbv zeta.
  assert (H : records_valid
                (Extra.mkMcu (mkRtc 0 0 22 false) 6 5 18 42 1 0
                   (mkLcd 0 0 0 0 0 0 [])))
    by (unfold records_valid; cbn; lia).
  split; [exact H|].
  destruct (Show_Sunrise_Sunset_overlay _ 0 (fun _ => 32) H)
    as (_ & E & _).
  exact E.
Defined.

(** C3 (as the code has it).  Starting with the latch at NIGHT, the
    classifications NIGHT, NIGHT, DAY, DAY, NIGHT log exactly two events: a
    SUNRISE in the third iteration and a SUNSET in the fifth.  Each is
    stamped with the hour read from the clock and the minute read from the
    clock in that iteration, in two separate reads; the stamp is a reading
    the clock showed between the two reads whenever both reads saw the same
    hour.  In the third and fifth iteration the record of the event's kind
    takes the stamp, the other record is untouched and the sunrise/sunset
    screen goes over the bus before the status render; in the first, second
    and fourth iteration no record is written and the bus carries the
    status render alone.  The latch holds each iteration's classification
    when the iteration ends. *)
Theorem edge_sequence (m : Extra.mcu)
    (pir1 pir2 pir3 pir4 pir5 : bool) (p1 p2 p3 p4 p5 : Extra.preempt)
    (H : Extra.prevLDRState m = 1) :
  let inputs :=
    [(mkSample true pir1, p1); (mkSample true pir2, p2);
     (mkSample false pir3, p3); (mkSample false pir4, p4);
     (mkSample true pir5, p5)] in
  let m2 := fst (Extra.run (firstn 2 inputs) m) in
  let m4 := fst (Extra.run (firstn 4 inputs) m) in
  let c3 := ticks (Extra.irq_before p3) (Extra.clock m2) in
  let c5 := ticks (Extra.irq_before p5) (Extra.clock m4) in
  let stamp3 := (hours c3, minutes (ticks (Extra.irq_between p3) c3)) in
  let stamp5 := (hours c5, minutes (ticks (Extra.irq_between p5) c5)) in
  let log :=
    [None; None;
     Some (Extra.SUNRISE, fst stamp3, snd stamp3);
     None;
     Some (Extra.SUNSET, fst stamp5, snd stamp5)] in
  snd (Extra.run inputs m) = log /\
  run_matches inputs m log /\
  Extra.latches inputs m = [1; 1; 0; 0; 1] /\
  record_of Extra.SUNRISE (fst (Extra.run inputs m)) = stamp3 /\
  record_of Extra.SUNSET (fst (Extra.run inputs m)) = stamp5 /\
  (hours (ticks (Extra.irq_between p3) c3) = hours c3 ->
   Extra.is_snapshot_of (fst stamp3) (snd stamp3) (read_span p3 m2) = true) /\
  (hours (ticks (Extra.irq_between p5) c5) = hours c5 ->
   Extra.is_snapshot_of (fst stamp5) (snd stamp5) (read_span p5 m4) = true).
Proof.
  cbv zeta. cbn [firstn fst snd].
  assert (Log : snd (Extra.run
                       [(mkSample true pir1, p1); (mkSample true pir2, p2);
                        (mkSample false pir3, p3); (mkSample false pir4, p4);
                        (mkSample true pir5, p5)] m) =
    [None; None;
     Some (Extra.SUNRISE,
           hours (ticks (Extra.irq_before p3)
                    (Extra.clock
                       (fst (Extra.run
                               [(mkSample true pir1, p1);
                                (mkSample true pir2, p2)] m)))),
           minutes (ticks (Extra.irq_between p3)
                      (ticks (Extra.irq_before p3)
                         (Extra.clock
                            (fst (Extra.run
                                    [(mkSample true pir1, p1);
                                     (mkSample true pir2, p2)] m))))));
     None;
     Some (Extra.SUNSET,
           hours (ticks (Extra.irq_before p5)
                    (Extra.clock
                       (fst (Extra.run
                               [(mkSample true pir1, p1);
                                (mkSample true pir2, p2);
                                (mkSample false pir3, p3);
                                (mkSample false pir4, p4)] m)))),
           minutes (ticks (Extra.irq_between p5)
                      (ticks (Extra.irq_before p5)
                         (Extra.clock
                            (fst (Extra.run
                                    [(mkSample true pir1, p1);
                                     (mkSample true pir2, p2);
                                     (mkSample false pir3, p3);
                                     (mkSample false pir4, p4)] m))))))]).
  { rewrite !run_cons. cbn [fst snd Extra.run].
    unfold Extra.cycle_event. rewrite !logged_stamp, !main_cycle_latch, H.
    reflexivity. }
  split; [exact Log|].
  split; [rewrite <- Log; apply run_matches_log|].
  split; [rewrite latches_map; reflexivity|].
  pose proof (run_matches_log
                [(mkSample true pir1, p1); (mkSample true pir2, p2);
                 (mkSample false pir3, p3); (mkSample false pir4, p4);
                 (mkSample true pir5, p5)] m) as M.
  rewrite Log in M. clear Log.
  rewrite !run_cons in *. cbn [fst snd Extra.run] in *.
  cbn [run_matches] in M.
  destruct M as (_ & _ & M3 & M4 & M5 & _).
  destruct M3 as (R3 & _ & _). destruct M4 as (R4 & _ & _).
  destruct M5 as (R5 & R5' & _).
  cbn [other] in R5'.
  split; [rewrite R5', R4; exact R3|].
  split; [exact R5|].
  split; intro Hh; unfold read_span; apply stamp_is_snapshot, Hh.
Qed.

Lemma edge_sequence_witness :
  let m := Extra.mkMcu (mkRtc 58 59 5 false) 0 0 0 0 1 0
             (mkLcd 0 0 0 0 0 0 []) in
  let p := Extra.mkPreempt 1 0 0 in
  Extra.prevLDRState m = 1 /\
  snd (Extra.run
         [(mkSample true false, p); (mkSample true true, p);
          (mkSample false false, p); (mkSample false false, p);
          (mkSample true false, p)] m) =
    [None; None; Some (Extra.SUNRISE, 6, 0); None; Some (Extra.SUNSET, 6, 0)].
Proof.
  cbv zeta. split; [reflexivity|].
  pose proof (edge_sequence
                (Extra.mkMcu (mkRtc 58 59 5 false) 0 0 0 0 1 0
                   (mkLcd 0 0 0 0 0 0 []))
                false true false false false
                (Extra.mkPreempt 1 0 0) (Extra.mkPreempt 1 0 0)
                (Extra.mkPreempt 1 0 0) (Extra.mkPreempt 1 0 0)
                (Extra.mkPreempt 1 0 0) eq_refl) as E.
  cbv zeta in E. destruct E as (E & _).
  rewrite E. vm_compute. reflexivity.
Defined.

(** C3, the claim as stated, fails on the time stamp: with the clock at
    05:59:59, the latch at NIGHT and one tick served between the two clock
    reads of the third iteration, the sequence NIGHT, NIGHT, DAY, DAY, NIGHT
    logs its SUNRISE with the stamp 05:00, although the clock showed only
    05:59:59 and 06:00:00 during the whole run. *)
Lemma edge_sequence_torn_stamp :
  let m := Extra.mkMcu (mkRtc 59 59 5 false) 0 0 0 0 1 0
             (mkLcd 0 0 0 0 0 0 []) in
  let quiet := Extra.mkPreempt 0 0 0 in
  let inputs :=
    [(mkSample true false, quiet); (mkSample true false, quiet);
     (mkSample false false, Extra.mkPreempt 0 1 0);
     (mkSample false false, quiet); (mkSample true false, quiet)] in
  Extra.prevLDRState m = 1 /\
  valid_time (Extra.clock m) /\
  snd (Extra.run inputs m) =
    [None; None; Some (Extra.SUNRISE, 5, 0); None;
     Some (Extra.SUNSET, 6, 0)] /\
  record_of Extra.SUNRISE (fst (Extra.run inputs m)) = (5, 0) /\
  map snapshot (Extra.passed_through 1 (Extra.clock m))
    = [(5, 59, 59); (6, 0, 0)] /\
  snapshot (Extra.clock (fst (Extra.run inputs m))) = (6, 0, 0) /\
  Extra.is_snapshot_of 5 0 (Extra.passed_through 1 (Extra.clock m)) = false.
Proof.
  cbv zeta. split; [reflexivity|].
  split; [unfold valid_time; cbn; lia|].
  repeat match goal with |- _ /\ _ => split end; vm_compute; reflexivity.
Qed.


(** C5.  Whatever the state at power-on, the start-up code loads the latch
    from the LDR line, so the first iteration logs an event only if the
    line has changed between that read and the iteration's own read - a
    sunrise if it went from dark to light, a sunset if it went from light to
    dark, nothing if it reads the same.  What the first iteration stores and
    sends agrees with that: when the line reads the same, neither record is
    written and the bus carries the status render alone, without the
    sunrise/sunset screen; when it has changed, the record of that kind
    takes the stamp and the screen is shown.  After every iteration of a run
    the latch holds that iteration's classification, and every iteration of
    a run stores and sends what its log entry says. *)
Theorem latch_from_first_sample (m0 : Extra.mcu) (ldr0 : bool) (irq : nat)
    (s : sample) (p : Extra.preempt)
    (inputs : list (sample * Extra.preempt)) (m : Extra.mcu) :
  let booted := Extra.startup ldr0 irq m0 in
  let c := ticks (Extra.irq_before p) (Extra.clock booted) in
  let stamp k := Some (k, hours c, minutes (ticks (Extra.irq_between p) c)) in
  let first :=
    match ldr0, RB0 s with
    | true, false => stamp Extra.SUNRISE
    | false, true => stamp Extra.SUNSET
    | _, _ => None
    end in
  Extra.prevLDRState booted = bit ldr0 /\
  Extra.cycle_event s p booted = first /\
  (Extra.cycle_event s p booted = None <-> RB0 s = ldr0) /\
  Extra.prevLDRState (Extra.main_cycle s p m) = bit (RB0 s) /\
  Extra.latches inputs m = map (fun sp => bit (RB0 (fst sp))) inputs /\
  iteration_matches first s p booted /\
  (RB0 s = ldr0 ->
   record_of Extra.SUNRISE (Extra.main_cycle s p booted)
     = record_of Extra.SUNRISE booted /\
   record_of Extra.SUNSET (Extra.main_cycle s p booted)
     = record_of Extra.SUNSET booted /\
   cycle_bus s p booted = status_bus s /\
   no_wait Extra.dwell_us (cycle_bus s p booted) = true) /\
  run_matches inputs m (snd (Extra.run inputs m)).
Proof.
  cbv zeta.
  assert (E : Extra.cycle_event s p (Extra.startup ldr0 irq m0) =
    match ldr0, RB0 s with
    | true, false =>
        Some (Extra.SUNRISE,
              hours (ticks (Extra.irq_before p)
                       (Extra.clock (Extra.startup ldr0 irq m0))),
              minutes (ticks (Extra.irq_between p)
                         (ticks (Extra.irq_before p)
                            (Extra.clock (Extra.startup ldr0 irq m0)))))
    | false, true =>
        Some (Extra.SUNSET,
              hours (ticks (Extra.irq_before p)
                       (Extra.clock (Extra.startup ldr0 irq m0))),
              minutes (ticks (Extra.irq_between p)
                         (ticks (Extra.irq_before p)
                            (Extra.clock (Extra.startup ldr0 irq m0)))))
    | _, _ => None
    end).
  { unfold Extra.cycle_event. rewrite logged_stamp, startup_latch, edge_bits.
    destruct ldr0, (RB0 s); reflexivity. }
  split; [apply startup_latch|].
  split; [exact E|].
  split.
  { rewrite E. destruct ldr0, (RB0 s); split; intro H;
      try reflexivity; try discriminate. }
  split; [apply main_cycle_latch|].
  split; [apply latches_map|].
  pose proof (cycle_event_matches s p (Extra.startup ldr0 irq m0)) as M.
  rewrite E in M.
  split; [exact M|].
  split; [|apply run_matches_log].
  intro Hsame.
  assert (Q : iteration_matches None s p (Extra.startup ldr0 irq m0)).
  { destruct ldr0, (RB0 s); try discriminate Hsame; exact M. }
  destruct Q as (Q1 & Q2 & Q3).
  split; [exact Q1|]. split; [exact Q2|]. split; [exact Q3|].
  rewrite Q3. unfold status_bus.
  destruct (RB0 s), (RD2 s); vm_compute; reflexivity.
Qed.




(** C10.  While no event of a kind has been logged since power-on, the
    record of that kind still holds its initial value 00:00; when the first
    edge is of the other kind, the screen held during the dwell shows that
    record as "Sunrise:00:00" on row 1, respectively "Sunset :00:00" on
    row 2. *)
Theorem first_edge_shows_zero_record (k : Extra.sun_kind)
    (rc1 : Z) (pins : lcd) (ldr0 : bool) (irq : nat)
    (inputs : list (sample * Extra.preempt))
    (s : sample) (p : Extra.preempt) (ac : Z) (mem : Z -> Z)
    (Hnever : never k
                (snd (Extra.run inputs
                        (Extra.startup ldr0 irq (Extra.power_on rc1 pins))))
              = true)
    (Hedge : is_kind (other k)
               (Extra.cycle_event s p
                  (fst (Extra.run inputs
                          (Extra.startup ldr0 irq (Extra.power_on rc1 pins)))))
             = true) :
  let m := fst (Extra.run inputs
                  (Extra.startup ldr0 irq (Extra.power_on rc1 pins))) in
  record_of k m = (0, 0) /\
  exists scr,
    screen_at_wait Extra.dwell_us (cycle_bus s p m) (mkDisplay None ac mem)
      = Some scr /\
    row_of k scr = zero_row k.
Proof.
  cbv zeta.
  set (m0 := Extra.startup ldr0 irq (Extra.power_on rc1 pins)) in *.
  set (m := fst (Extra.run inputs m0)) in *.
  assert (V0 : valid_time (Extra.clock m0)).
  { unfold m0. rewrite startup_clock. apply ticks_valid, rtc_boot_valid. }
  assert (Vm : valid_time (Extra.clock m)) by (apply run_clock_valid, V0).
  assert (Z0 : record_of k m = (0, 0)).
  { unfold m. rewrite (run_record_kept k inputs m0 Hnever).
    destruct k; reflexivity. }
  split; [exact Z0|].
  unfold Extra.cycle_event in Hedge. rewrite logged_stamp in Hedge.
  destruct (Extra.edge (Extra.prevLDRState m) (bit (RB0 s))) as [k'|] eqn:E;
    [|discriminate].
  assert (K : k' = other k)
    by (destruct k, k'; cbn [is_kind other] in Hedge |- *;
        first [reflexivity | discriminate]).
  subst k'.
  pose proof (cycle_bus_edge (other k) s p m E) as B. cbv zeta in B.
  destruct (stamped_records (other k) p m) as (S1 & S2). cbv zeta in S1.
  assert (O : other (other k) = k) by (destruct k; reflexivity).
  rewrite O, Z0 in S2.
  pose proof (ticks_valid (Extra.irq_before p) _ Vm) as Vc.
  pose proof (ticks_valid (Extra.irq_between p) _ Vc) as Vc'.
  destruct Vc as (Vh & _ & _). destruct Vc' as (_ & Vmin & _).
  set (h := hours (ticks (Extra.irq_before p) (Extra.clock m))) in *.
  set (mi := minutes (ticks (Extra.irq_between p)
                        (ticks (Extra.irq_before p) (Extra.clock m)))) in *.
  rewrite B.
  pose proof (f_equal fst S1) as S1h. pose proof (f_equal snd S1) as S1m.
  pose proof (f_equal fst S2) as S2h. pose proof (f_equal snd S2) as S2m.
  destruct k; cbn [other record_of fst snd] in S1h, S1m, S2h, S2m |- *;
    rewrite S1h, S1m, S2h, S2m;
    unfold overlay_xfers;
    rewrite (time_xfers_small 0 0), (time_xfers_small h mi) by lia;
    rewrite screen_at_wait_found by apply overlay_no_dwell;
    rewrite display_run_bus_of by reflexivity;
    rewrite overlay_cells;
    eexists; (split; [reflexivity|]); reflexivity.
Qed.

Lemma first_edge_shows_zero_record_witness :
  let boot := Extra.startup true 3 (Extra.power_on 0 (mkLcd 0 0 0 0 0 0 [])) in
  let p := Extra.mkPreempt 1 0 0 in
  let inputs := [(mkSample true false, p); (mkSample true true, p)] in
  let s := mkSample false false in
  let m := fst (Extra.run inputs boot) in
  never Extra.SUNSET (snd (Extra.run inputs boot)) = true /\
  is_kind Extra.SUNRISE (Extra.cycle_event s p m) = true /\
  record_of Extra.SUNSET m = (0, 0) /\
  exists scr,
    screen_at_wait Extra.dwell_us (cycle_bus s p m) blank = Some scr /\
    snd scr = codes "Sunset :00:00   ".
Proof.
  cbv zeta.
  assert (H1 : never Extra.SUNSET
                 (snd (Extra.run
                         [(mkSample true false, Extra.mkPreempt 1 0 0);
                          (mkSample true true, Extra.mkPreempt 1 0 0)]
                         (Extra.startup true 3
                            (Extra.power_on 0 (mkLcd 0 0 0 0 0 0 [])))))
               = true) by (vm_compute; reflexivity).
  assert (H2 : is_kind (other Extra.SUNSET)
                 (Extra.cycle_event (mkSample false false)
                    (Extra.mkPreempt 1 0 0)
                    (fst (Extra.run
                            [(mkSample true false, Extra.mkPreempt 1 0 0);
                             (mkSample true true, Extra.mkPreempt 1 0 0)]
                            (Extra.startup true 3
                               (Extra.power_on 0 (mkLcd 0 0 0 0 0 0 []))))))
               = true) by (vm_compute; reflexivity).
  split; [exact H1|]. split; [exact H2|].
  exact (first_edge_shows_zero_record Extra.SUNSET 0 (mkLcd 0 0 0 0 0 0 [])
           true 3 _ _ _ 0 (fun _ => 32) H1 H2).
Defined.

(** * Further properties of the code *)

Lemma tick_bytes r :
  byte_clock r ->
  byte_clock (tick r) /\ 0 <= seconds (tick r) <= 59 /\
  (seconds r = 59 -> 0 <= minutes (tick r) <= 59) /\
  (0 <= seconds r < 59 ->
   seconds (tick r) = seconds r + 1 /\ minutes (tick r) = minutes r /\
   hours (tick r) = hours r) /\
  (seconds r = 59 -> 0 <= minutes r < 59 ->
   seconds (tick r) = 0 /\ minutes (tick r) = minutes r + 1 /\
   hours (tick r) = hours r) /\
  (seconds r = 59 -> minutes r = 59 ->
   seconds (tick r) = 0 /\ minutes (tick r) = 0 /\ 0 <= hours (tick r) <= 23).
Proof.
  intros (Hh & Hm & Hs).
  unfold byte_clock, tick, ISR, raise_TMR2IF, u8.
  cbn [TMR2IF seconds minutes hours].
  pose proof (Z.mod_pos_bound (seconds r + 1) 256 ltac:(lia)) as Bs.
  pose proof (Z.mod_pos_bound (minutes r + 1) 256 ltac:(lia)) as Bm.
  pose proof (Z.mod_pos_bound (hours r + 1) 256 ltac:(lia)) as Bh.
  assert (Es : seconds r < 255 -> (seconds r + 1) mod 256 = seconds r + 1)
    by (intro; apply Z.mod_small; lia).
  assert (Em : minutes r < 255 -> (minutes r + 1) mod 256 = minutes r + 1)
    by (intro; apply Z.mod_small; lia).
  assert (Eh : hours r < 255 -> (hours r + 1) mod 256 = hours r + 1)
    by (intro; apply Z.mod_small; lia).
  destruct (Z.geb_spec ((seconds r + 1) mod 256) 60);
    [destruct (Z.geb_spec ((minutes r + 1) mod 256) 60);
     [destruct (Z.geb_spec ((hours r + 1) mod 256) 24)|]|];
    cbn [TMR2IF seconds minutes hours]; lia.
Qed.

Lemma ticks_plus a b r : ticks (a + b) r = ticks b (ticks a r).
Proof.
  revert r. induction a as [|a IH]; intro r; [reflexivity|].
  cbn [Nat.add ticks]. apply IH.
Qed.

(** From valid seconds, the minutes are valid within 60 ticks. *)
Lemma minutes_recover r :
  byte_clock r -> 0 <= seconds r <= 59 ->
  exists j, (j <= 60)%nat /\ byte_clock (ticks j r) /\
            0 <= seconds (ticks j r) <= 59 /\ 0 <= minutes (ticks j r) <= 59.
Proof.
  intros Hb Hs.
  remember (Z.to_nat (59 - seconds r)) as n eqn:En.
  assert (Hj : exists j, (j <= S n)%nat /\ byte_clock (ticks j r) /\
            0 <= seconds (ticks j r) <= 59 /\ 0 <= minutes (ticks j r) <= 59).
  { revert r Hb Hs En. induction n as [|n IH]; intros r Hb Hs En.
    - exists 1%nat. destruct (tick_bytes r Hb) as (B & S1 & M1 & _).
      cbn [ticks]. repeat split; try apply B; try apply S1; try lia;
        apply M1; lia.
    - destruct (tick_bytes r Hb) as (B & S1 & _ & Adv & _).
      destruct Adv as (A1 & A2 & A3); [lia|].
      destruct (IH (tick r) B S1 ltac:(lia)) as (j & Lj & Pj).
      exists (S j). split; [lia|exact Pj]. }
  destruct Hj as (j & Lj & Pj). exists j. split; [lia|exact Pj].
Qed.

(** From valid seconds and minutes, the clock is valid within 3600 ticks. *)
Lemma hours_recover r :
  byte_clock r -> 0 <= seconds r <= 59 -> 0 <= minutes r <= 59 ->
  exists j, (j <= 3600)%nat /\ valid_time (ticks j r).
Proof.
  intros Hb Hs Hm.
  remember (Z.to_nat (3599 - (60 * minutes r + seconds r))) as n eqn:En.
  assert (Hj : exists j, (j <= S n)%nat /\ valid_time (ticks j r)).
  { revert r Hb Hs Hm En. induction n as [|n IH]; intros r Hb Hs Hm En.
    - exists 1%nat. destruct (tick_bytes r Hb) as (B & S1 & _ & _ & _ & W).
      destruct W as (W1 & W2 & W3); [lia|lia|].
      cbn [ticks]. unfold valid_time. split; [lia|]. lia.
    - destruct (tick_bytes r Hb) as (B & S1 & M1 & Adv & Car & _).
      assert (Hm' : 0 <= minutes (tick r) <= 59).
      { destruct (Z.eq_dec (seconds r) 59) as [E|E]; [apply M1, E|].
        destruct Adv as (_ & A2 & _); lia. }
      assert (Hn : n = Z.to_nat (3599 - (60 * minutes (tick r) + seconds (tick r)))).
      { destruct (Z.eq_dec (seconds r) 59) as [E|E].
        - destruct Car as (C1 & C2 & _); [exact E|lia|]. lia.
        - destruct Adv as (A1 & A2 & _); lia. }
      destruct (IH (tick r) B S1 Hm' Hn) as (j & Lj & Pj).
      exists (S j). split; [lia|exact Pj]. }
  destruct Hj as (j & Lj & Pj). exists j. split; [|exact Pj].
  assert (n <= 3599)%nat by lia. lia.
Qed.

(** X4.  The comparisons in the interrupt routine are [>=], not [==]: from
    any byte values in the three time variables the clock is a valid
    wall-clock triple after at most 3661 ticks, and stays one. *)
Theorem clock_recovers (r : rtc) (n : nat)
    (Hb : byte_clock r) (Hn : (3661 <= n)%nat) :
  valid_time (ticks n r).
Proof.
  destruct (tick_bytes r Hb) as (B1 & S1 & _).
  destruct (minutes_recover (tick r) B1 S1) as (j & Lj & Bj & Sj & Mj).
  destruct (hours_recover (ticks j (tick r)) Bj Sj Mj) as (k & Lk & Vk).
  replace n with ((1 + j + k) + (n - (1 + j + k)))%nat by lia.
  rewrite ticks_plus. apply ticks_valid.
  rewrite ticks_plus, ticks_plus. exact Vk.
Qed.

Lemma clock_recovers_witness :
  byte_clock (mkRtc 255 200 100 false) /\
  valid_time (ticks (Z.to_nat 3661) (mkRtc 255 200 100 false)).
Proof.
  assert (H : byte_clock (mkRtc 255 200 100 false))
    by (unfold byte_clock; cbn; lia).
  assert (N : (3661 <= Z.to_nat 3661)%nat) by lia.
  split; [exact H|].
  exact (clock_recovers (mkRtc 255 200 100 false) (Z.to_nat 3661) H N).
Defined.

(** X1.  From any valid clock, [n] ticks advance the second-of-day count by
    [n] modulo 86400, and the reading is that count split into hours,
    minutes and seconds. *)
Theorem clock_after_ticks (r : rtc) (n : nat) (H : valid_time r) :
  let d := (day_second r + Z.of_nat n) mod 86400 in
  valid_time (ticks n r) /\
  snapshot (ticks n r) = (d / 3600, (d / 60) mod 60, d mod 60).
Proof.
  cbv zeta. pose proof (ticks_valid n r H) as V.
  split; [exact V|].
  destruct (valid_time_fields _ V) as (Eh & Em & Es).
  unfold snapshot. rewrite Eh, Em, Es, (ticks_day_second n r H). reflexivity.
Qed.

Lemma clock_after_ticks_witness :
  valid_time rtc_boot /\
  snapshot (ticks (Z.to_nat 7200) rtc_boot) = (0, 0, 0) /\
  snapshot (ticks (Z.to_nat 7199) rtc_boot) = (23, 59, 59).
Proof.
  assert (H : valid_time rtc_boot) by (unfold valid_time, rtc_boot; cbn; lia).
  split; [exact H|]. split.
  - rewrite (proj2 (clock_after_ticks rtc_boot (Z.to_nat 7200) H)).
    rewrite Z2Nat.id by lia. reflexivity.
  - rewrite (proj2 (clock_after_ticks rtc_boot (Z.to_nat 7199) H)).
    rewrite Z2Nat.id by lia. reflexivity.
Defined.

(** X2.  The interrupt routine always leaves the Timer2 flag cleared, so
    entering it again without a new timer match changes nothing: one match
    is counted once. *)
Theorem ISR_acknowledges (r : rtc) :
  TMR2IF (ISR r) = false /\
  ISR (ISR r) = ISR r /\
  (TMR2IF r = false -> ISR r = r).
Proof.
  assert (F : TMR2IF (ISR r) = false).
  { unfold ISR. destruct (TMR2IF r) eqn:E; [|exact E].
    destruct (u8 (seconds r + 1) >=? 60); [|reflexivity].
    destruct (u8 (minutes r + 1) >=? 60); [|reflexivity].
    destruct (u8 (hours r + 1) >=? 24); reflexivity. }
  split; [exact F|]. split; [apply ISR_idle, F|apply ISR_idle].
Qed.

(** X3.  On a valid clock the reading comes back after exactly 86,400
    ticks and after no smaller positive number of ticks. *)
Theorem clock_period (r : rtc) (k : nat) (H : valid_time r)
    (Hk : (0 < k < Z.to_nat 86400)%nat) :
  snapshot (ticks (Z.to_nat 86400) r) = snapshot r /\
  snapshot (ticks k r) <> snapshot r.
Proof.
  assert (S : forall a b, valid_time a -> valid_time b ->
              snapshot a = snapshot b <-> day_second a = day_second b).
  { intros a b Va Vb. unfold snapshot, day_second. split.
    - intro E. injection E as E1 E2 E3. rewrite E1, E2, E3. reflexivity.
    - intro E. destruct Va as (? & ? & ?), Vb as (? & ? & ?).
      assert (hours a = hours b /\ minutes a = minutes b /\
              seconds a = seconds b) as (-> & -> & ->) by lia.
      reflexivity. }
  assert (D : 0 <= day_second r < 86400)
    by (destruct H as (? & ? & ?); unfold day_second; lia).
  split.
  - apply S; [apply ticks_valid, H|exact H|].
    rewrite ticks_day_second by exact H. rewrite Z2Nat.id by lia.
    replace (day_second r + 86400) with (day_second r + 1 * 86400) by lia.
    rewrite Z.mod_add by lia. apply Z.mod_small, D.
  - intro E. apply S in E; [|apply ticks_valid, H|exact H].
    rewrite ticks_day_second in E by exact H.
    assert (Kz : 0 < Z.of_nat k < 86400) by lia.
    revert E. generalize (Z.of_nat k) Kz. intros z Kz' E.
    Z.div_mod_to_equations. lia.
Qed.

Lemma clock_period_witness :
  valid_time rtc_boot /\
  snapshot (ticks (Z.to_nat 86400) rtc_boot) = (22, 0, 0) /\
  snapshot (ticks 1 rtc_boot) <> (22, 0, 0).
Proof.
  assert (H : valid_time rtc_boot) by (unfold valid_time, rtc_boot; cbn; lia).
  assert (K : (0 < 1 < Z.to_nat 86400)%nat) by lia.
  split; [exact H|].
  exact (clock_period rtc_boot 1 H K).
Defined.

Lemma code_byte c : 0 <= code c <= 255.
Proof.
  unfold code. pose proof (N_ascii_bounded c) as B. lia.
Qed.

Lemma frame_byte_small rs b :
  0 <= b <= 255 ->
  frame_byte rs b =
  [Wait 1; Latch rs (b / 16); Wait 1; Latch rs (b mod 16); Wait 2000].
Proof.
  intro H. unfold frame_byte. rewrite (Z.mod_small (b / 16)); [reflexivity|].
  Z.div_mod_to_equations. lia.
Qed.

(** X5.  [LCD_Command] and [LCD_Data] put a byte on the bus as two strobe
    pulses, high nibble first, with the register-select level 0
    respectively 1, whatever the pins held before; the display reassembles
    exactly that byte, and the strobe is left low. *)
Theorem byte_transfer_round_trip (b : Z) (l : lcd) (ac : Z) (mem : Z -> Z)
    (Hb : 0 <= b <= 255) :
  let d := mkDisplay None ac mem in
  emitted (LCD_Command b) l
    = [Wait 1; Latch 0 (b / 16); Wait 1; Latch 0 (b mod 16); Wait 2000] /\
  emitted (LCD_Data b) l
    = [Wait 1; Latch 1 (b / 16); Wait 1; Latch 1 (b mod 16); Wait 2000] /\
  display_run (emitted (LCD_Command b) l) d = exec_command b d /\
  display_run (emitted (LCD_Data b) l) d = exec_data b d /\
  RD3 (LCD_Command b l) = 0 /\ RD3 (LCD_Data b l) = 0.
Proof.
  cbv zeta.
  assert (U : u8 b = b) by (apply Z.mod_small; lia).
  rewrite (emits_emitted _ _ l (emits_Command b)).
  rewrite (emits_emitted _ _ l (emits_Data b)).
  rewrite !display_run_bus_of by reflexivity.
  unfold bus_of. cbn [flat_map bus_of_xfer xfer_run fold_left xfer_step].
  rewrite !app_nil_r, !frame_byte_small, U by exact Hb.
  repeat match goal with |- _ /\ _ => split end; reflexivity.
Qed.

Lemma byte_transfer_round_trip_witness :
  0 <= 65 <= 255 /\
  row 0 (display_run (emitted (LCD_Data 65) (mkLcd 1 1 1 1 1 1 [])) blank)
    = codes "A               ".
Proof.
  assert (H : 0 <= 65 <= 255) by lia.
  split; [exact H|].
  destruct (byte_transfer_round_trip 65 (mkLcd 1 1 1 1 1 1 []) 0
              (fun _ => 32) H) as (_ & _ & _ & E & _).
  change blank with (mkDisplay None 0 (fun _ => 32)).
  rewrite E. reflexivity.
Defined.

Lemma text_nul_free s : nul_free s = true -> text s = map Dat (codes s).
Proof.
  induction s as [|c s IH]; intro H; [reflexivity|].
  cbn [nul_free] in H. apply andb_true_iff in H. destruct H as [Hc Hs].
  apply negb_true_iff in Hc. cbn [text codes map]. rewrite Hc, IH by exact Hs.
  reflexivity.
Qed.

Lemma codes_length s : List.length (codes s) = String.length s.
Proof. induction s as [|c s IH]; [reflexivity|]. cbn. rewrite IH. reflexivity. Qed.

Lemma codes_bytes s : Forall (fun c => 0 <= c <= 255) (codes s).
Proof.
  induction s as [|c s IH]; constructor; [apply code_byte|exact IH].
Qed.

(** Data bytes written in a row land in consecutive cells, as long as the
    address counter stays within one 40-cell line of the display memory. *)
Lemma xfer_run_data base cs :
  base = 0 \/ base = 64 ->
  Forall (fun c => 0 <= c <= 255) cs ->
  forall d,
  base <= AC d -> AC d + Z.of_nat (List.length cs) <= base + 40 ->
  forall a,
    DDRAM (xfer_run (map Dat cs) d) a =
    if (AC d <=? a) && (a <? AC d + Z.of_nat (List.length cs))
    then nth (Z.to_nat (a - AC d)) cs 32
    else DDRAM d a.
Proof.
  intros Hbase Hcs. induction Hcs as [|c cs Hc Hcs IH]; intros d Hlo Hhi a.
  - cbn [map xfer_run fold_left List.length].
    destruct (Z.leb_spec (AC d) a), (Z.ltb_spec a (AC d + Z.of_nat 0));
      cbn [andb]; try reflexivity; lia.
  - cbn [map xfer_run fold_left xfer_step].
    fold (xfer_run (map Dat cs) (exec_data (u8 c) d)).
    assert (U : u8 c = c) by (apply Z.mod_small; lia). rewrite U.
    cbn [List.length] in Hhi |- *. rewrite Nat2Z.inj_succ in Hhi |- *.
    destruct cs as [|c' cs'].
    + cbn [map xfer_run fold_left exec_data DDRAM List.length].
      destruct (Z.eqb_spec a (AC d)) as [->|Na].
      * rewrite Z.leb_refl. cbn [andb].
        destruct (Z.ltb_spec (AC d) (AC d + Z.succ (Z.of_nat 0))); [|lia].
        rewrite Z.sub_diag. reflexivity.
      * destruct (Z.leb_spec (AC d) a),
          (Z.ltb_spec a (AC d + Z.succ (Z.of_nat 0)));
          cbn [andb]; try reflexivity; lia.
    + assert (Hn : next_address (AC d) = AC d + 1).
      { cbn [List.length] in Hhi. rewrite Nat2Z.inj_succ in Hhi.
        unfold next_address.
        destruct (Z.eqb_spec (AC d) 39); [lia|].
        destruct (Z.eqb_spec (AC d) 103); [lia|reflexivity]. }
      rewrite IH; cbn [exec_data AC DDRAM]; rewrite ?Hn; try lia.
      destruct (Z.eqb_spec a (AC d)) as [->|Na].
      * destruct (Z.leb_spec (AC d + 1) (AC d)); [lia|]. cbn [andb].
        rewrite Z.leb_refl.
        destruct (Z.ltb_spec (AC d)
                    (AC d + Z.succ (Z.of_nat (List.length (c' :: cs')))));
          [|lia].
        cbn [andb]. rewrite Z.sub_diag. reflexivity.
      * destruct (Z.leb_spec (AC d + 1) a), (Z.leb_spec (AC d) a),
          (Z.ltb_spec a (AC d + 1 + Z.of_nat (List.length (c' :: cs')))),
          (Z.ltb_spec a (AC d + Z.succ (Z.of_nat (List.length (c' :: cs')))));
          cbn [andb]; try reflexivity; try lia.
        replace (Z.to_nat (a - AC d)) with (S (Z.to_nat (a - (AC d + 1))))
          by lia.
        reflexivity.
Qed.

Lemma on_screen_spec row col :
  on_screen row col = true <-> (row = 1 \/ row = 2) /\ 1 <= col <= 16.
Proof.
  unfold on_screen. rewrite !andb_true_iff, orb_true_iff, !Z.eqb_eq, !Z.leb_le.
  tauto.
Qed.

Lemma cursor_command_on_screen row col :
  on_screen row col = true ->
  cursor_command row col = 128 + (64 * (row - 1) + (col - 1)).
Proof.
  intro H. apply on_screen_spec in H. destruct H as ([->| ->] & Hc);
    unfold cursor_command, u8; cbn [Z.eqb Pos.eqb];
    rewrite Z.mod_small by lia; lia.
Qed.

(** X7.  For a position on the screen [LCD_SetCursor] sends
    0x80 + 0x40 * (row - 1) + (col - 1), which loads the display's address
    counter with the cell of that row and column and changes no cell;
    different positions give different commands. *)
Theorem cursor_addresses_cell (row col : Z) (l : lcd) (ac : Z) (mem : Z -> Z)
    (H : on_screen row col = true) :
  let d' := display_run (emitted (LCD_SetCursor row col) l)
              (mkDisplay None ac mem) in
  cursor_command row col = 128 + 64 * (row - 1) + (col - 1) /\
  AC d' = 64 * (row - 1) + (col - 1) /\
  (forall a, DDRAM d' a = mem a) /\
  (forall row' col',
     on_screen row' col' = true ->
     cursor_command row' col' = cursor_command row col ->
     row' = row /\ col' = col).
Proof.
  cbv zeta. pose proof (cursor_command_on_screen row col H) as E.
  pose proof (proj1 (on_screen_spec row col) H) as S.
  split; [lia|].
  rewrite (emits_emitted _ _ l (emits_SetCursor row col)).
  rewrite display_run_bus_of by reflexivity.
  cbn [xfer_run fold_left xfer_step]. rewrite E.
  assert (U : u8 (128 + (64 * (row - 1) + (col - 1)))
              = 128 + (64 * (row - 1) + (col - 1)))
    by (apply Z.mod_small; lia).
  rewrite U. unfold exec_command.
  destruct (Z.eqb_spec (128 + (64 * (row - 1) + (col - 1))) 1); [lia|].
  destruct (Z.geb_spec (128 + (64 * (row - 1) + (col - 1))) 128); [|lia].
  cbn [AC DDRAM]. split; [lia|]. split; [reflexivity|].
  intros row' col' H' Eq.
  rewrite (cursor_command_on_screen row' col' H') in Eq.
  apply on_screen_spec in H'. lia.
Qed.

Lemma cursor_addresses_cell_witness :
  on_screen 2 1 = true /\ cursor_command 2 1 = 192.
Proof.
  split; [reflexivity|].
  destruct (cursor_addresses_cell 2 1 (mkLcd 0 0 0 0 0 0 []) 0 (fun _ => 32)
              eq_refl) as (E & _).
  exact E.
Defined.

(** X8.  [LCD_SetCursor row col] followed by [LCD_String s], for a
    position on the screen and a string that stays within the 40-cell line
    of the display memory, stores the characters of [s] in consecutive
    cells from that position and changes no other cell: text longer than
    the visible 16 columns runs into the off-screen cells of the same line,
    it is neither cut nor wrapped to the other row. *)
Theorem write_string_cells (row col : Z) (s : string) (l : lcd)
    (ac : Z) (mem : Z -> Z)
    (Hon : on_screen row col = true)
    (Hnul : nul_free s = true)
    (Hfit : col - 1 + Z.of_nat (String.length s) <= 40) :
  let start := 64 * (row - 1) + (col - 1) in
  let d' := display_run
              (emitted (LCD_SetCursor row col ;; LCD_String s) l)
              (mkDisplay None ac mem) in
  forall a,
    DDRAM d' a =
    if (start <=? a) && (a <? start + Z.of_nat (String.length s))
    then nth (Z.to_nat (a - start)) (codes s) 32
    else mem a.
Proof.
  cbv zeta. intro a.
  pose proof (proj1 (on_screen_spec row col) Hon) as S.
  rewrite (emits_emitted _ _ l
             (emits_seq _ _ _ _ (emits_SetCursor row col) (emits_String s))).
  rewrite display_run_bus_of by reflexivity.
  rewrite xfer_run_app, (text_nul_free s Hnul).
  cbn [xfer_run fold_left xfer_step].
  fold (xfer_run (map Dat (codes s))
          (exec_command (u8 (cursor_command row col)) (mkDisplay None ac mem))).
  rewrite (cursor_command_on_screen row col Hon).
  assert (U : u8 (128 + (64 * (row - 1) + (col - 1)))
              = 128 + (64 * (row - 1) + (col - 1)))
    by (apply Z.mod_small; lia).
  rewrite U. unfold exec_command.
  destruct (Z.eqb_spec (128 + (64 * (row - 1) + (col - 1))) 1); [lia|].
  destruct (Z.geb_spec (128 + (64 * (row - 1) + (col - 1))) 128); [|lia].
  rewrite (xfer_run_data (64 * (row - 1)) (codes s));
    cbn [AC DDRAM]; rewrite ?codes_length; try lia; try apply codes_bytes.
  replace (128 + (64 * (row - 1) + (col - 1)) - 128)
    with (64 * (row - 1) + (col - 1)) by lia.
  reflexivity.
Qed.

Lemma write_string_cells_witness :
  let d' := display_run
              (emitted (LCD_SetCursor 1 14 ;; LCD_String "Hello")
                 (mkLcd 0 0 0 0 0 0 []))
              blank in
  on_screen 1 14 = true /\ nul_free "Hello" = true /\
  13 + Z.of_nat (String.length "Hello") <= 40 /\
  map (DDRAM d') [12; 13; 14; 15; 16; 17; 18; 64]
    = [32; code "H"; code "e"; code "l"; code "l"; code "o"; 32; 32].
Proof.
  cbv zeta.
  assert (F : 14 - 1 + Z.of_nat (String.length "Hello") <= 40) by (cbn; lia).
  split; [reflexivity|]. split; [reflexivity|]. split; [cbn; lia|].
  pose proof (write_string_cells 1 14 "Hello" (mkLcd 0 0 0 0 0 0 []) 0
                (fun _ => 32) eq_refl eq_refl F) as W.
  cbv zeta in W. change blank with (mkDisplay None 0 (fun _ => 32)).
  cbn [map]. rewrite !W. reflexivity.
Defined.

(** X9.  [LCD_Print_Time] sends five characters.  The second digit of
    each field is always a decimal digit; the first is one exactly when the
    value is at most 99 (a byte of 100 or more prints a character from ':'
    upwards). *)
Theorem Print_Time_digits (h m : Z) (l : lcd)
    (Hh : 0 <= h <= 255) (Hm : 0 <= m <= 255) :
  emitted (LCD_Print_Time h m) l =
    bus_of [Dat (48 + h / 10); Dat (48 + h mod 10); Dat 58;
            Dat (48 + m / 10); Dat (48 + m mod 10)] /\
  is_digit (48 + h mod 10) /\ is_digit (48 + m mod 10) /\
  (is_digit (48 + h / 10) <-> h <= 99) /\
  (is_digit (48 + m / 10) <-> m <= 99) /\
  (h <= 99 -> m <= 99 -> reads_as (time_cells h m) h m).
Proof.
  rewrite (emits_emitted _ _ l (emits_Print_Time h m)).
  rewrite (time_xfers_small h m Hh Hm).
  split; [reflexivity|].
  unfold is_digit.
  repeat match goal with |- _ /\ _ => split end;
    try (intros; apply time_cells_read; lia);
    try split; intros; Z.div_mod_to_equations; lia.
Qed.

Lemma Print_Time_digits_witness :
  0 <= 100 <= 255 /\ 0 <= 7 <= 255 /\
  emitted (LCD_Print_Time 100 7) (mkLcd 0 0 0 0 0 0 [])
    = bus_of (text ":0:07").
Proof.
  assert (Hh : 0 <= 100 <= 255) by lia.
  assert (Hm : 0 <= 7 <= 255) by lia.
  split; [exact Hh|]. split; [exact Hm|].
  exact (proj1 (Print_Time_digits 100 7 (mkLcd 0 0 0 0 0 0 []) Hh Hm)).
Defined.

Lemma basic_Update_Display_emits_any n mo lv :
  emits (Basic.Update_Display n mo lv)
        (status_xfers (negb (n =? 0)) (negb (mo =? 0)) (lv =? 2)).
Proof.
  intro l. unfold Basic.Update_Display, seq_.
  destruct (n =? 0), (mo =? 0), (lv =? 2); bus_steps; vm_compute; reflexivity.
Qed.

Lemma extra_Update_Display_emits_any n mo lv :
  emits (Extra.Update_Display n mo lv)
        (status_xfers (negb (n =? 0)) (negb (mo =? 0)) (negb (lv =? 0))).
Proof.
  intro l. unfold Extra.Update_Display, seq_.
  destruct (n =? 0), (mo =? 0), (lv =? 0); bus_steps; vm_compute; reflexivity.
Qed.

Lemma emits_sync f xs l ac mem :
  emits f xs ->
  pending (display_run (emitted f l) (mkDisplay None ac mem)) = None.
Proof.
  intro H. rewrite (emits_emitted _ _ l H).
  rewrite display_run_bus_of by reflexivity.
  apply xfer_run_pending. reflexivity.
Qed.

(** X6.  Every driver routine sends whole bytes: whatever its arguments, a
    display that was between bytes before the call is between bytes after
    it. *)
Theorem driver_keeps_nibble_sync (s : string) (row col h m n mo lv : Z)
    (l : lcd) (ac : Z) (mem : Z -> Z) :
  let synced f :=
    pending (display_run (emitted f l) (mkDisplay None ac mem)) = None in
  synced (LCD_String s) /\ synced (LCD_SetCursor row col) /\
  synced LCD_Clear /\ synced (LCD_Print_Time h m) /\
  synced (Basic.Update_Display n mo lv) /\
  synced (Extra.Update_Display n mo lv).
Proof.
  cbv zeta.
  repeat match goal with |- _ /\ _ => split end; eapply emits_sync.
  - apply emits_String.
  - apply emits_SetCursor.
  - apply emits_Clear.
  - apply emits_Print_Time.
  - apply basic_Update_Display_emits_any.
  - apply extra_Update_Display_emits_any.
Qed.

Lemma status_xfers_on_differ a b l :
  bus_of (status_xfers a b true) ++ l <> bus_of (status_xfers a b false) ++ l.
Proof. destruct a, b; vm_compute; intro H; discriminate H. Qed.

(** X10.  The two [Update_Display] variants test the level differently
    ([level == 2] against [level]): they put the same traffic on the bus
    exactly for the levels 0 and 2, the only ones the main loops pass. *)
Theorem builds_differ_on_level (n mo lv : Z) (l : lcd) :
  emitted (Basic.Update_Display n mo lv) l
    = emitted (Extra.Update_Display n mo lv) l
  <-> (lv = 0 \/ lv = 2).
Proof.
  rewrite (emits_emitted _ _ l (basic_Update_Display_emits_any n mo lv)).
  rewrite (emits_emitted _ _ l (extra_Update_Display_emits_any n mo lv)).
  destruct (Z.eqb_spec lv 2) as [E2|N2], (Z.eqb_spec lv 0) as [E0|N0];
    cbn [negb]; try lia.
  - split; [intro; right; exact E2|reflexivity].
  - split; [intro; left; exact E0|reflexivity].
  - split; [|lia]. intro H. exfalso.
    apply (status_xfers_on_differ (negb (n =? 0)) (negb (mo =? 0)) []).
    rewrite !app_nil_r. symmetry. exact H.
Qed.

Lemma busy_time_app a b : busy_time (a ++ b) = busy_time a + busy_time b.
Proof.
  induction a as [|[rs n|n] a IH]; cbn [app busy_time]; lia.
Qed.

Lemma busy_time_bus_of xs :
  busy_time (bus_of xs) =
  fold_right (fun x t => match x with
                         | Pause us => us + t
                         | _ => 2002 + t
                         end) 0 xs.
Proof.
  induction xs as [|x xs IH]; [reflexivity|].
  change (bus_of (x :: xs)) with (bus_of_xfer x ++ bus_of xs).
  rewrite busy_time_app, IH. destruct x; cbn; lia.
Qed.

Lemma status_busy_time a b c : busy_time (bus_of (status_xfers a b c)) = 50050.
Proof. rewrite busy_time_bus_of. destruct a, b, c; reflexivity. Qed.

Lemma overlay_busy_time a b c d :
  busy_time (bus_of (overlay_xfers a b c d)) = 60058.
Proof. rewrite busy_time_bus_of. reflexivity. Qed.

Lemma basic_main_cycle_panel s irq m :
  Basic.panel (Basic.main_cycle s irq m) =
  __delay_ms 150
    (Basic.Update_Display (bit (RB0 s)) (bit (RD2 s))
       (if RB0 s && RD2 s then FULL else OFF) (Basic.panel m)).
Proof.
  unfold Basic.main_cycle. rewrite light_control_table.
  destruct (RB0 s && RD2 s); reflexivity.
Qed.

Lemma basic_cycle_bus_eq s irq m :
  basic_cycle_bus s irq m =
  bus_of (status_xfers (RB0 s) (RD2 s) (RB0 s && RD2 s)) ++ [Wait 150000].
Proof.
  unfold basic_cycle_bus. rewrite basic_main_cycle_panel.
  change (wire (__delay_ms 150 ?x)) with (Wait 150000 :: wire x).
  rewrite (basic_Update_Display_emits (RB0 s) (RD2 s) (RB0 s && RD2 s)).
  change (Wait 150000 :: ?a ++ ?old) with ((Wait 150000 :: a) ++ old).
  replace (Wait 150000 :: rev (bus_of (status_xfers (RB0 s) (RD2 s) (RB0 s && RD2 s))))
    with (rev (bus_of (status_xfers (RB0 s) (RD2 s) (RB0 s && RD2 s)) ++ [Wait 150000]))
    by (rewrite rev_app_distr; reflexivity).
  apply since_app.
Qed.

(** X11.  The busy-wait time of a loop iteration does not depend on the
    sensors: 200,050 us for a status render (25 byte transfers and the
    150 ms pause), and 5,264,110 us when the logging build shows the
    sunrise/sunset screen first. *)
Theorem iteration_busy_time (s : sample) (irq : nat) (p : Extra.preempt)
    (mb : Basic.mcu) (me : Extra.mcu) :
  busy_time (basic_cycle_bus s irq mb) = 200050 /\
  busy_time (cycle_bus s p me) =
    (match Extra.edge (Extra.prevLDRState me) (bit (RB0 s)) with
     | Some _ => 5264110
     | None => 200050
     end).
Proof.
  split.
  - rewrite basic_cycle_bus_eq, busy_time_app, status_busy_time. reflexivity.
  - destruct (Extra.edge (Extra.prevLDRState me) (bit (RB0 s))) as [k|] eqn:E.
    + rewrite (cycle_bus_edge k s p me E).
      rewrite busy_time_app, overlay_busy_time.
      cbn [busy_time]. rewrite !busy_time_app, status_busy_time.
      reflexivity.
    + rewrite (cycle_bus_quiet s p me E), busy_time_app, status_busy_time.
      reflexivity.
Qed.

(** X12.  In an iteration without a day/night change the logging build
    behaves as the first build: the same bus traffic and the same level on
    RC1. *)
Theorem builds_agree_without_edge (s : sample) (irq : nat)
    (p : Extra.preempt) (mb : Basic.mcu) (me : Extra.mcu)
    (H : Extra.edge (Extra.prevLDRState me) (bit (RB0 s)) = None) :
  cycle_bus s p me = basic_cycle_bus s irq mb /\
  Extra.RC1 (Extra.main_cycle s p me) = Basic.RC1 (Basic.main_cycle s irq mb).
Proof.
  split.
  - rewrite (cycle_bus_quiet s p me H), basic_cycle_bus_eq. reflexivity.
  - rewrite main_cycle_RC1, basic_main_cycle_RC1. reflexivity.
Qed.

Lemma builds_agree_without_edge_witness :
  let me := Extra.mkMcu rtc_boot 0 0 0 0 1 0 (mkLcd 0 0 0 0 0 0 []) in
  let mb := Basic.mkMcu rtc_boot 1 (mkLcd 1 0 1 0 1 0 [Wait 7]) in
  let s := mkSample true true in
  Extra.edge (Extra.prevLDRState me) (bit (RB0 s)) = None /\
  cycle_bus s (Extra.mkPreempt 2 0 1) me = basic_cycle_bus s 3 mb.
Proof.
  cbv zeta. split; [reflexivity|].
  exact (proj1 (builds_agree_without_edge (mkSample true true) 3
                  (Extra.mkPreempt 2 0 1)
                  (Basic.mkMcu rtc_boot 1 (mkLcd 1 0 1 0 1 0 [Wait 7]))
                  (Extra.mkMcu rtc_boot 0 0 0 0 1 0 (mkLcd 0 0 0 0 0 0 []))
                  eq_refl)).
Defined.

(** X13.  An iteration that detects an edge ends with the status screen
    on an otherwise blank display: nothing of the sunrise/sunset screen
    remains. *)
Theorem status_clean_after_overlay (k : Extra.sun_kind) (s : sample)
    (p : Extra.preempt) (m : Extra.mcu) (ac : Z) (mem : Z -> Z)
    (H : Extra.edge (Extra.prevLDRState m) (bit (RB0 s)) = Some k) :
  screen (display_run (cycle_bus s p m) (mkDisplay None ac mem)) =
    (codes (status_line1 (RB0 s) (RD2 s) ++ "    "),
     codes (status_line2 (RB0 s && RD2 s) ++ "     ")).
Proof.
  rewrite (cycle_bus_edge k s p m H).
  change (Wait Extra.dwell_us :: ?r) with ([Wait Extra.dwell_us] ++ r).
  rewrite !display_run_app.
  rewrite (display_run_bus_of (overlay_xfers _ _ _ _)) by reflexivity.
  set (d1 := xfer_run _ (mkDisplay None ac mem)).
  assert (P1 : pending d1 = None) by (apply xfer_run_pending; reflexivity).
  change (display_run [Wait Extra.dwell_us] d1) with d1.
  rewrite (display_run_bus_of clear_xfers d1 P1).
  change (xfer_run clear_xfers d1) with blank.
  rewrite (display_run_bus_of _ blank) by reflexivity.
  change (display_run [Wait 150000] ?d) with d.
  destruct (RB0 s), (RD2 s); vm_compute; reflexivity.
Qed.

Lemma status_clean_after_overlay_witness :
  let m := Extra.mkMcu (mkRtc 30 12 6 false) 0 0 0 0 1 0
             (mkLcd 0 0 0 0 0 0 []) in
  let s := mkSample false true in
  Extra.edge (Extra.prevLDRState m) (bit (RB0 s)) = Some Extra.SUNRISE /\
  screen (display_run (cycle_bus s (Extra.mkPreempt 0 0 0) m) blank) =
    (codes "Day   M:YES     ", codes "Light:OFF       ").
Proof.
  cbv zeta. split; [reflexivity|].
  exact (status_clean_after_overlay Extra.SUNRISE (mkSample false true)
           (Extra.mkPreempt 0 0 0)
           (Extra.mkMcu (mkRtc 30 12 6 false) 0 0 0 0 1 0
              (mkLcd 0 0 0 0 0 0 []))
           0 (fun _ => 32) eq_refl).
Defined.

Lemma cycle_event_kind s p m b :
  Extra.prevLDRState m = bit b ->
  kind_of (Extra.cycle_event s p m) =
  match b, RB0 s with
  | true, false => Some Extra.SUNRISE
  | false, true => Some Extra.SUNSET
  | _, _ => None
  end.
Proof.
  intro H. unfold Extra.cycle_event. rewrite logged_stamp, H, edge_bits.
  destruct b, (RB0 s); reflexivity.
Qed.

Lemma run_kinds inputs m b :
  Extra.prevLDRState m = bit b ->
  map kind_of (snd (Extra.run inputs m))
  = edges b (map (fun sp => RB0 (fst sp)) inputs).
Proof.
  revert m b. induction inputs as [|[s p] rest IH]; intros m b H;
    [reflexivity|].
  rewrite run_cons. cbn [snd map fst edges].
  rewrite (cycle_event_kind s p m b H).
  rewrite (IH (Extra.main_cycle s p m) (RB0 s) (main_cycle_latch s p m)).
  reflexivity.
Qed.

Lemma edges_alternate (b : bool) (ldrs : list bool) :
  alternates (if b then Extra.SUNRISE else Extra.SUNSET) (edges b ldrs) = true.
Proof.
  revert b. induction ldrs as [|x rest IH]; intro b; [reflexivity|].
  cbn [edges]. pose proof (IH x) as Hx.
  destruct b, x; cbn [alternates kind_eqb other andb] in *; exact Hx.
Qed.

(** X14.  The kinds of the logged events are determined by the sequence
    of LDR levels alone (not by motion, clock or interrupts): an event is
    logged exactly where the level differs from the previous one, so
    sunrises and sunsets alternate.  The log is what the code does: in
    every iteration without an entry no record is written and the bus
    carries the status render alone, and in every iteration with an entry
    the record of that kind takes the entry's stamp, the other record is
    untouched and the sunrise/sunset screen is sent first. *)
Theorem log_follows_ldr (inputs : list (sample * Extra.preempt))
    (m : Extra.mcu) (b : bool) (H : Extra.prevLDRState m = bit b) :
  map kind_of (snd (Extra.run inputs m))
    = edges b (map (fun sp => RB0 (fst sp)) inputs) /\
  alternates (if b then Extra.SUNRISE else Extra.SUNSET)
    (map kind_of (snd (Extra.run inputs m))) = true /\
  run_matches inputs m (snd (Extra.run inputs m)).
Proof.
  rewrite (run_kinds inputs m b H).
  split; [reflexivity|]. split; [apply edges_alternate|apply run_matches_log].
Qed.

Lemma log_follows_ldr_witness :
  let m := Extra.mkMcu rtc_boot 0 0 0 0 0 0 (mkLcd 0 0 0 0 0 0 []) in
  let p := Extra.mkPreempt 1 0 0 in
  Extra.prevLDRState m = bit false /\
  map kind_of
    (snd (Extra.run [(mkSample false true, p); (mkSample true true, p);
                     (mkSample true false, p); (mkSample false false, p)] m))
  = [None; Some Extra.SUNSET; None; Some Extra.SUNRISE].
Proof.
  cbv zeta. split; [reflexivity|].
  exact (proj1 (log_follows_ldr
                  [(mkSample false true, Extra.mkPreempt 1 0 0);
                   (mkSample true true, Extra.mkPreempt 1 0 0);
                   (mkSample true false, Extra.mkPreempt 1 0 0);
                   (mkSample false false, Extra.mkPreempt 1 0 0)]
                  (Extra.mkMcu rtc_boot 0 0 0 0 0 0 (mkLcd 0 0 0 0 0 0 []))
                  false eq_refl)).
Defined.

Lemma cycle_event_record k s p m :
  record_of k (Extra.main_cycle s p m) =
  match Extra.cycle_event s p m with
  | Some (k', h, mi) => if kind_eqb k k' then (h, mi) else record_of k m
  | None => record_of k m
  end.
Proof.
  destruct (main_cycle_records s p m) as (E1 & E2 & E3 & E4).
  pose proof (detect_records (bit (RB0 s)) p m) as D. cbv zeta in D.
  unfold Extra.cycle_event. rewrite logged_stamp.
  unfold record_of.
  destruct (Extra.edge (Extra.prevLDRState m) (bit (RB0 s))) as [[|]|];
    destruct D as (D1 & D2 & D3 & D4);
    destruct k; cbn [kind_eqb]; rewrite ?E1, ?E2, ?E3, ?E4; congruence.
Qed.

(** X15.  After any run each record holds the stamp of the last logged
    event of its kind, or its earlier value if the run logged none. *)
Theorem records_hold_last_stamp (k : Extra.sun_kind)
    (inputs : list (sample * Extra.preempt)) (m : Extra.mcu) :
  record_of k (fst (Extra.run inputs m))
  = last_stamp k (snd (Extra.run inputs m)) (record_of k m).
Proof.
  revert m. induction inputs as [|[s p] rest IH]; intro m; [reflexivity|].
  rewrite run_cons. cbn [fst snd]. rewrite IH, cycle_event_record.
  destruct (Extra.cycle_event s p m) as [[[k' h] mi]|]; reflexivity.
Qed.

Lemma run_bits inputs m :
  (Extra.prevLDRState m = 0 \/ Extra.prevLDRState m = 1) ->
  (Extra.RC1 m = 0 \/ Extra.RC1 m = 1) ->
  let m' := fst (Extra.run inputs m) in
  (Extra.prevLDRState m' = 0 \/ Extra.prevLDRState m' = 1) /\
  (Extra.RC1 m' = 0 \/ Extra.RC1 m' = 1).
Proof.
  revert m. induction inputs as [|[s p] rest IH]; intros m HL HR;
    [split; assumption|].
  cbv zeta. rewrite run_cons. cbn [fst]. apply IH.
  - rewrite main_cycle_latch. destruct (RB0 s); [right|left]; reflexivity.
  - rewrite main_cycle_RC1, light_control_table.
    destruct (RB0 s && RD2 s); [right|left]; reflexivity.
Qed.

(** X16.  In every state the logging build reaches from power-on the
    clock is a valid triple, both records hold an hour in 0..23 and a
    minute in 0..59, and the latch and RC1 are single bits. *)
Theorem reachable_state_valid (rc1 : Z) (pins : lcd) (ldr : bool) (irq : nat)
    (inputs : list (sample * Extra.preempt)) :
  let m := fst (Extra.run inputs
                  (Extra.startup ldr irq (Extra.power_on rc1 pins))) in
  valid_time (Extra.clock m) /\ records_valid m /\
  (Extra.prevLDRState m = 0 \/ Extra.prevLDRState m = 1) /\
  (Extra.RC1 m = 0 \/ Extra.RC1 m = 1).
Proof.
  cbv zeta.
  set (m0 := Extra.startup ldr irq (Extra.power_on rc1 pins)).
  assert (V0 : valid_time (Extra.clock m0)).
  { unfold m0. rewrite startup_clock. apply ticks_valid, rtc_boot_valid. }
  assert (R0 : records_valid m0) by (unfold records_valid; cbn; lia).
  split; [apply run_clock_valid, V0|].
  split; [apply run_records_valid; assumption|].
  apply run_bits.
  - unfold m0. rewrite startup_latch. destruct ldr; [right|left]; reflexivity.
  - left. reflexivity.
Qed.

Lemma splash_emits :
  emits (LCD_Clear ;; LCD_String "Street Light" ;; LCD_SetCursor 2 1 ;;
         LCD_String "Controller" ;; __delay_ms 2000 ;; LCD_Clear)
        splash_xfers.
Proof.
  intro l. unfold seq_. rewrite LCD_Clear_wire.
  change (wire (__delay_ms 2000 ?x)) with (Wait 2000000 :: wire x).
  bus_steps. vm_compute. reflexivity.
Qed.

Lemma splash_screens ac mem :
  let d := mkDisplay None ac mem in
  screen_at_wait 2000000 (bus_of splash_xfers) d
    = Some (codes "Street Light    ", codes "Controller      ") /\
  screen (display_run (bus_of splash_xfers) d) = (blank_row, blank_row).
Proof.
  cbv zeta. split.
  - vm_compute. reflexivity.
  - rewrite display_run_bus_of by reflexivity. vm_compute. reflexivity.
Qed.

Lemma basic_panel_on_panel f m :
  Basic.panel (Basic.on_panel f m) = f (Basic.panel m).
Proof. reflexivity. Qed.

Lemma basic_RC1_on_panel f m : Basic.RC1 (Basic.on_panel f m) = Basic.RC1 m.
Proof. reflexivity. Qed.

Lemma extra_panel_on_panel f m :
  Extra.panel (Extra.on_panel f m) = f (Extra.panel m).
Proof. reflexivity. Qed.

Lemma extra_RC1_on_panel f m : Extra.RC1 (Extra.on_panel f m) = Extra.RC1 m.
Proof. reflexivity. Qed.

Lemma extra_startup_tail ldr irq m :
  Extra.panel (Extra.set_prevLDRState (bit ldr)
                 (Extra.on_clock (ticks irq) m)) = Extra.panel m /\
  Extra.RC1 (Extra.set_prevLDRState (bit ldr)
               (Extra.on_clock (ticks irq) m)) = Extra.RC1 m.
Proof. split; reflexivity. Qed.

Lemma basic_startup_panel m :
  Basic.panel (Basic.startup m) =
  (LCD_Clear ;; LCD_String "Street Light" ;; LCD_SetCursor 2 1 ;;
   LCD_String "Controller" ;; __delay_ms 2000 ;; LCD_Clear)
    (Basic.panel (Basic.System_Init m)).
Proof.
  unfold Basic.startup, seq_. do 6 rewrite basic_panel_on_panel. reflexivity.
Qed.

Lemma extra_startup_panel ldr irq m :
  Extra.panel (Extra.startup ldr irq m) =
  (LCD_Clear ;; LCD_String "Street Light" ;; LCD_SetCursor 2 1 ;;
   LCD_String "Controller" ;; __delay_ms 2000 ;; LCD_Clear)
    (Extra.panel (Extra.System_Init m)).
Proof.
  unfold Extra.startup, seq_. rewrite (proj1 (extra_startup_tail ldr irq _)).
  do 6 rewrite extra_panel_on_panel. reflexivity.
Qed.

Lemma basic_startup_RC1 m : Basic.RC1 (Basic.startup m) = 0.
Proof.
  unfold Basic.startup, seq_. do 6 rewrite basic_RC1_on_panel. reflexivity.
Qed.

Lemma extra_startup_RC1 ldr irq m : Extra.RC1 (Extra.startup ldr irq m) = 0.
Proof.
  unfold Extra.startup, seq_. rewrite (proj2 (extra_startup_tail ldr irq _)).
  do 6 rewrite extra_RC1_on_panel. reflexivity.
Qed.

(** X17.  Between initialisation and the loop both builds clear the
    screen, show "Street Light" and "Controller" for two seconds and clear
    again; RC1 is low when the loop starts.  The screen contents are those
    of a display that is between bytes when this traffic starts. *)
Theorem startup_splash (mb : Basic.mcu) (me : Extra.mcu) (ldr : bool)
    (irq : nat) (ac : Z) (mem : Z -> Z) :
  let d := mkDisplay None ac mem in
  basic_splash_bus mb = bus_of splash_xfers /\
  extra_splash_bus ldr irq me = bus_of splash_xfers /\
  screen_at_wait 2000000 (bus_of splash_xfers) d
    = Some (codes "Street Light    ", codes "Controller      ") /\
  screen (display_run (bus_of splash_xfers) d) = (blank_row, blank_row) /\
  Basic.RC1 (Basic.startup mb) = 0 /\
  Extra.RC1 (Extra.startup ldr irq me) = 0.
Proof.
  cbv zeta.
  split.
  { unfold basic_splash_bus. rewrite basic_startup_panel, splash_emits.
    apply since_app. }
  split.
  { unfold extra_splash_bus. rewrite extra_startup_panel, splash_emits.
    apply since_app. }
  destruct (splash_screens ac mem) as (S1 & S2).
  split; [exact S1|]. split; [exact S2|].
  split; [apply basic_startup_RC1|apply extra_startup_RC1].
Qed.
